(** * Hyper-parameter search driver ([src/hpo/optuna.py])

    A shallow embedding of the Optuna tuning driver of the benchmark suite
    and the verification of its behavioural contract.

    The Python module is effectful: it asks the trial for categorical
    suggestions, mutates the caller's [main_parameters] dictionary, starts an
    external launcher and raises exceptions.  The model threads these through
    a small monad of its own:

    - a store made of the state of the external world (sampler, launcher)
      and a heap of dictionary objects, so that aliasing of the
      [main_parameters] mapping between trials is visible;
    - a result that is either a value or a raised exception; an exception
      keeps the store as it was when it was raised, as in Python;
    - a log of the calls made to the external collaborators.

    A categorical suggestion, the launcher and the dump of the study may
    raise.  The other calls the driver makes to the optimiser and to the file
    system (the creation of the study, the tables and the figure) are
    recorded as calls; their own failures are not modelled.  Console output
    ([print]) is not modelled. *)

From Stdlib Require Import String ZArith List Bool Lia.
From Stdlib Require Import Floats.SpecFloat.
Set Warnings "-register-all,-notation-for-abbreviation".
Import ListNotations.
Local Open Scope string_scope.
Local Open Scope list_scope.
Local Open Scope Z_scope.

(* ================================================================== *)
(** ** Python values and dictionaries *)

(** The values that occur in the two parameter mappings: [None], booleans,
    integers, floats (binary64, as IEEE 754 data), strings, and lists of
    values (candidate sets). *)
Inductive value : Type :=
| VNone
| VBool (b : bool)
| VInt (z : Z)
| VFloat (f : spec_float)
| VStr (s : string)
| VList (l : list value).

(** The integer a value is when it is an [int]; [bool] is a subclass of
    [int] in Python. *)
Definition as_int (v : value) : option Z :=
  match v with
  | VInt a => Some a
  | VBool b => Some (if b then 1 else 0)
  | _ => None
  end.

(** [f > n] for a float and an integer, which Python compares exactly. *)
Definition float_gt_int (f : spec_float) (n : Z) : bool :=
  match f with
  | S754_nan => false
  | S754_infinity negative => negb negative
  | S754_zero _ => n <? 0
  | S754_finite negative m e =>
      let sm := if negative then Z.neg m else Z.pos m in
      if 0 <=? e then n <? sm * 2 ^ e else n * 2 ^ (- e) <? sm
  end.

(** A [dict] keeps its items in insertion order, as Python's does; the keys
    of a well-formed dictionary are pairwise distinct. *)
Definition dict : Type := list (string * value).

Definition keys (d : dict) : list string := map fst d.

(** [d.get(k)] *)
Fixpoint dict_get (d : dict) (k : string) : option value :=
  match d with
  | [] => None
  | (k', v) :: d' => if String.eqb k' k then Some v else dict_get d' k
  end.

(** [k in d] *)
Definition dict_mem (k : string) (d : dict) : bool :=
  match dict_get d k with Some _ => true | None => false end.

(** [d[k] = v]: an existing key keeps its position, a new one goes last. *)
Fixpoint dict_set (d : dict) (k : string) (v : value) : dict :=
  match d with
  | [] => [(k, v)]
  | (k', v') :: d' =>
      if String.eqb k' k then (k, v) :: d' else (k', v') :: dict_set d' k v
  end.

(** [d.update(other)] *)
Definition dict_update (d other : dict) : dict :=
  fold_left (fun acc kv => dict_set acc (fst kv) (snd kv)) other d.

(* ================================================================== *)
(** ** Collaborators that live outside [optuna.py] *)

(** Modelled from the spec: [TuningMode] is declared in [hpo/utils.py]; the
    data model gives it as the enumerated variant LATENCY, THROUGHPUT, BOTH. *)
Inductive TuningMode : Type := LATENCY | THROUGHPUT | BOTH.

Definition TuningMode_eqb (a b : TuningMode) : bool :=
  match a, b with
  | LATENCY, LATENCY | THROUGHPUT, THROUGHPUT | BOTH, BOTH => true
  | _, _ => false
  end.

(** The host description returned by [CPUinfo()]; only the physical core
    count is read. *)
Record CPUinfo : Type := { physical_core_nums : Z }.

(** Exceptions. *)
Inductive exn : Type :=
| KeyError (key : string)
| IndexError
| TypeError
| ZeroDivisionError
| AttributeError (name : string)
| InvalidArguments
| ExternalError (msg : string).

Inductive Res (A : Type) : Type :=
| Ok (a : A)
| Raise (e : exn).
Arguments Ok {A} a.
Arguments Raise {A} e.

Definition ref : Type := nat.

(** The optimiser's classes and factories that the driver chooses between. *)
Inductive sampler_class : Type := TPESampler | NSGAIISampler.

Inductive study_factory : Type :=
| create_study
| multi_objective_create_study.

(** The keyword arguments [**mode2directions[mode]]. *)
Inductive direction_kwargs : Type :=
| direction (d : string)
| directions (ds : list string).

(** Calls to the outside world, in the order they are made.  The tables
    and figures that are written come from the optimiser's study; only the
    call and its destination are recorded. *)
Inductive event : Type :=
| EvSuggest (name : string) (choices : list value)
| EvLaunch (launcher_parameters main_parameters : dict)
| EvCreateStudy (factory : study_factory) (sampler : sampler_class)
    (kwargs : direction_kwargs)
| EvDump (path : string)
| EvParamImportances (target : option nat)
| EvToCsv (path : string)
| EvPlotParetoFront (names : list string)
| EvWriteImage (path : string).

Section Model.

(** The state of the external world (the optimiser's sampler, the launched
    workload) and the type of a measurement (a Python float). *)
Context {Env Measure : Type}.

(** The result of one launcher invocation. *)
Record ExperimentResult : Type :=
  { latency : Measure; throughput : Measure }.

(** What an objective function hands back to the optimiser: a float, or
    the tuple [(latency, throughput)]. *)
Inductive objective_value : Type :=
| Single (m : Measure)
| Pair (lat thr : Measure).

(** The external collaborators.  The sampler and the launcher answer or
    raise; the candidate generators and the host description are taken as
    the external interfaces give them. *)
Record Externals : Type := {
  (** [trial.suggest_categorical(name, choices)] *)
  sample : Env -> string -> list value -> Res value * Env;
  (** [launch_and_wait(launcher_parameters, main_parameters)] *)
  launch : Env -> dict -> dict -> Res ExperimentResult * Env;
  (** [generate_nb_instances_candidates(batch_size, mode, cpu_info)] *)
  generate_nb_instances_candidates :
    value -> TuningMode -> CPUinfo -> list Z;
  (** [generate_nb_cores_candidates(batch_size, mode, cpu_info, nb_instances)] *)
  generate_nb_cores_candidates :
    value -> TuningMode -> CPUinfo -> option value -> list Z;
  (** [CPUinfo()] *)
  host : CPUinfo;
  (** [size % instances == 0] when the operands are not both integers:
      float arithmetic, the printf-style formatting of a string, or the
      [TypeError] of an unsupported operand. *)
  py_percent_is_zero : value -> value -> Res bool;
  (** [joblib.dump(study, path)] *)
  dump : Env -> string -> Res unit * Env
}.

(** The store: external state, and a heap of dictionary objects. *)
Record Store : Type := mkStore {
  env : Env;
  heap : ref -> dict;
  next : ref
}.

Definition M (A : Type) : Type := Store -> Res A * Store * list event.

Definition ret {A} (a : A) : M A := fun s => (Ok a, s, []).

Definition raise {A} (e : exn) : M A := fun s => (Raise e, s, []).

Definition bind {A B} (m : M A) (f : A -> M B) : M B :=
  fun s =>
    match m s with
    | (Ok a, s1, evs1) =>
        match f a s1 with
        | (r, s2, evs2) => (r, s2, evs1 ++ evs2)
        end
    | (Raise e, s1, evs1) => (Raise e, s1, evs1)
    end.

Definition lift {A} (r : Res A) : M A := fun s => (r, s, []).

End Model.

Arguments ExperimentResult : clear implicits.
Arguments objective_value : clear implicits.
Arguments Externals : clear implicits.
Arguments Store : clear implicits.
Arguments M : clear implicits.
Arguments mkStore {Env} env heap next.

Declare Scope py_scope.
Delimit Scope py_scope with py.
Notation "x <- m ;; k" := (bind m (fun x => k))
  (at level 61, m at next level, right associativity) : py_scope.
Notation "m ;;; k" := (bind m (fun _ => k))
  (at level 61, right associativity) : py_scope.
Local Open Scope py_scope.

Section Program.

Context {Env Measure : Type}.
Variable X : Externals Env Measure.

Notation M' := (M Env).

(* ---------------------------------------------------------------- *)
(** *** Primitive operations *)

(** [trial.suggest_categorical(name, choices)] *)
Definition suggest_categorical (name : string) (choices : list value)
  : M' value :=
  fun s =>
    let '(r, e) := sample X (env s) name choices in
    (r, mkStore e (heap s) (next s), [EvSuggest name choices]).

(** [launch_and_wait(parameters, main_parameters)]: the launcher reads the
    dictionary object that [main_parameters] refers to. *)
Definition launch_and_wait (parameters : dict) (main_parameters : ref)
  : M' (ExperimentResult Measure) :=
  fun s =>
    let m := heap s main_parameters in
    let '(r, e) := launch X (env s) parameters m in
    (r, mkStore e (heap s) (next s), [EvLaunch parameters m]).

(** A fresh empty dictionary object, [{}]. *)
Definition new_dict : M' ref :=
  fun s =>
    let r := next s in
    (Ok r,
     mkStore (env s)
             (fun r' => if Nat.eqb r' r then [] else heap s r')
             (S r),
     []).

(** [obj[k]] on a dictionary object of the heap. *)
Definition getitem (obj : ref) (k : string) : M' value :=
  fun s =>
    match dict_get (heap s obj) k with
    | Some v => (Ok v, s, [])
    | None => (Raise (KeyError k), s, [])
    end.

(** [obj[k] = v] on a dictionary object of the heap. *)
Definition setitem (obj : ref) (k : string) (v : value) : M' unit :=
  fun s =>
    (Ok tt,
     mkStore (env s)
             (fun r' => if Nat.eqb r' obj then dict_set (heap s obj) k v
                        else heap s r')
             (next s),
     []).

(** [d[k]] on a local dictionary. *)
Definition dict_getitem (d : dict) (k : string) : Res value :=
  match dict_get d k with
  | Some v => Ok v
  | None => Raise (KeyError k)
  end.

(** [l[0]] *)
Definition first_item (l : list Z) : Res Z :=
  match l with
  | x :: _ => Ok x
  | [] => Raise IndexError
  end.

(** [v > n] for an integer [n]: Python 3 orders an integer only with
    numbers. *)
Definition py_gt (v : value) (n : Z) : Res bool :=
  match v with
  | VInt a => Ok (n <? a)
  | VBool b => Ok (n <? (if b then 1 else 0))
  | VFloat f => Ok (float_gt_int f n)
  | VNone | VStr _ | VList _ => Raise TypeError
  end.

(** [size % instances == 0], the body of [filter_fn]. *)
Definition filter_fn (instances : value) (size : value) : Res bool :=
  match as_int instances, as_int size with
  | Some n, Some a =>
      if n =? 0 then Raise ZeroDivisionError else Ok (a mod n =? 0)
  | _, _ => py_percent_is_zero X size instances
  end.

(** [list(filter(f, l))] for a predicate that may raise. *)
Fixpoint py_filter (f : value -> Res bool) (l : list value)
  : Res (list value) :=
  match l with
  | [] => Ok []
  | x :: l' =>
      match f x with
      | Raise e => Raise e
      | Ok b =>
          match py_filter f l' with
          | Raise e => Raise e
          | Ok r => Ok (if b then x :: r else r)
          end
      end
  end.

(* ---------------------------------------------------------------- *)
(** *** [prepare_parameter_for_optuna] *)

Definition prepare_parameter_for_optuna (key : string) (v : value)
  : M' value :=
  match v with
  | VList l =>
      match l with
      | [x] => ret x
      | _ => suggest_categorical key l
      end
  | _ => ret v
  end.

(* ---------------------------------------------------------------- *)
(** *** [_optimize_latency_and_throughput] *)

Definition _optimize_latency_and_throughput (mode : TuningMode)
    (launcher_parameters : option dict) (main_parameters : option ref)
  : M' (ExperimentResult Measure) :=
  let launcher_parameters :=
    match launcher_parameters with Some d => d | None => [] end in
  main_parameters <-
    match main_parameters with Some r => ret r | None => new_dict end ;;
  let cpu_info := host X in
  let parameters := dict_set [] "instances" (VInt 1) in
  parameters <-
    (if negb (dict_mem "instances" launcher_parameters) then
       batch_size <- getitem main_parameters "batch_size" ;;
       let candidates :=
         generate_nb_instances_candidates X batch_size mode cpu_info in
       if (1 <? Z.of_nat (length candidates)) then
         v <- suggest_categorical "instances" (map VInt candidates) ;;
         ret (dict_set parameters "instances" v)
       else
         v <- lift (first_item candidates) ;;
         ret (dict_set parameters "instances" (VInt v))
     else ret parameters) ;;
  parameters <-
    (if negb (dict_mem "openmp" launcher_parameters) then
       v <- suggest_categorical "openmp" [VStr "openmp"; VStr "iomp"] ;;
       ret (dict_set parameters "openmp" v)
     else ret parameters) ;;
  parameters <-
    (if negb (dict_mem "allocator" launcher_parameters) then
       v <- suggest_categorical "allocator"
              [VStr "default"; VStr "tcmalloc"; VStr "jemalloc"] ;;
       ret (dict_set parameters "allocator" v)
     else ret parameters) ;;
  parameters <-
    (if negb (dict_mem "huge_pages" launcher_parameters) then
       v <- suggest_categorical "huge_pages" [VStr "on"; VStr "off"] ;;
       ret (dict_set parameters "huge_pages" v)
     else ret parameters) ;;
  let parameters := dict_update parameters launcher_parameters in
  instances <- lift (dict_getitem parameters "instances") ;;
  exceeds <- lift (py_gt instances (physical_core_nums cpu_info)) ;;
  let parameters :=
    if (exceeds : bool)
    then dict_set parameters "instances" (VInt (physical_core_nums cpu_info))
    else parameters in
  instances <- lift (dict_getitem parameters "instances") ;;
  nb_cores <-
    suggest_categorical "nb_cores"
      (map VInt
         (generate_nb_cores_candidates X (VInt 1) mode cpu_info
            (Some instances))) ;;
  let parameters := dict_set parameters "nb_cores" nb_cores in
  batch_size <- getitem main_parameters "batch_size" ;;
  batch_size <-
    match batch_size with
    | VList l =>
        if (1 <? Z.of_nat (length l)) then
          instances <- lift (dict_getitem parameters "instances") ;;
          kept <- lift (py_filter (filter_fn instances) l) ;;
          ret (VList kept)
        else ret batch_size
    | _ => ret batch_size
    end ;;
  setitem main_parameters "batch_size" batch_size ;;;
  launch_and_wait parameters main_parameters.

(** The part of [_optimize_latency_and_throughput] that comes before the
    caller's overrides are merged in (the parameters built by lines 62-92),
    on its own, to name the dictionary that [parameters.update] starts
    from. *)
Definition default_parameters (mode : TuningMode)
    (launcher_parameters : dict) (main_parameters : ref) : M' dict :=
  let cpu_info := host X in
  let parameters := dict_set [] "instances" (VInt 1) in
  parameters <-
    (if negb (dict_mem "instances" launcher_parameters) then
       batch_size <- getitem main_parameters "batch_size" ;;
       let candidates :=
         generate_nb_instances_candidates X batch_size mode cpu_info in
       if (1 <? Z.of_nat (length candidates)) then
         v <- suggest_categorical "instances" (map VInt candidates) ;;
         ret (dict_set parameters "instances" v)
       else
         v <- lift (first_item candidates) ;;
         ret (dict_set parameters "instances" (VInt v))
     else ret parameters) ;;
  parameters <-
    (if negb (dict_mem "openmp" launcher_parameters) then
       v <- suggest_categorical "openmp" [VStr "openmp"; VStr "iomp"] ;;
       ret (dict_set parameters "openmp" v)
     else ret parameters) ;;
  parameters <-
    (if negb (dict_mem "allocator" launcher_parameters) then
       v <- suggest_categorical "allocator"
              [VStr "default"; VStr "tcmalloc"; VStr "jemalloc"] ;;
       ret (dict_set parameters "allocator" v)
     else ret parameters) ;;
  if negb (dict_mem "huge_pages" launcher_parameters) then
    v <- suggest_categorical "huge_pages" [VStr "on"; VStr "off"] ;;
    ret (dict_set parameters "huge_pages" v)
  else ret parameters.

(** The rest of [_optimize_latency_and_throughput], from the merge of the
    caller's overrides (line 94) to the launch (line 118), as a function of
    the parameters built before the merge. *)
Definition merge_and_launch (mode : TuningMode)
    (launcher_parameters : dict) (main_parameters : ref) (parameters : dict)
  : M' (ExperimentResult Measure) :=
  let cpu_info := host X in
  let parameters := dict_update parameters launcher_parameters in
  instances <- lift (dict_getitem parameters "instances") ;;
  exceeds <- lift (py_gt instances (physical_core_nums cpu_info)) ;;
  let parameters :=
    if (exceeds : bool)
    then dict_set parameters "instances" (VInt (physical_core_nums cpu_info))
    else parameters in
  instances <- lift (dict_getitem parameters "instances") ;;
  nb_cores <-
    suggest_categorical "nb_cores"
      (map VInt
         (generate_nb_cores_candidates X (VInt 1) mode cpu_info
            (Some instances))) ;;
  let parameters := dict_set parameters "nb_cores" nb_cores in
  batch_size <- getitem main_parameters "batch_size" ;;
  batch_size <-
    match batch_size with
    | VList l =>
        if (1 <? Z.of_nat (length l)) then
          instances <- lift (dict_getitem parameters "instances") ;;
          kept <- lift (py_filter (filter_fn instances) l) ;;
          ret (VList kept)
        else ret batch_size
    | _ => ret batch_size
    end ;;
  setitem main_parameters "batch_size" batch_size ;;;
  launch_and_wait parameters main_parameters.

(** The batch-size step of lines 108-112 on its own, for the instance
    count held by the configuration: what is stored back under
    ["batch_size"], or the exception of the filter. *)
Definition filter_batch_size (instances : value) (batch_size : value)
  : Res value :=
  match batch_size with
  | VList l =>
      if (1 <? Z.of_nat (length l)) then
        match py_filter (filter_fn instances) l with
        | Ok kept => Ok (VList kept)
        | Raise e => Raise e
        end
      else Ok batch_size
  | _ => Ok batch_size
  end.

(* ---------------------------------------------------------------- *)
(** *** The three objective functions *)

Definition optimize_latency_and_throughput
    (launcher_parameters : option dict) (main_parameters : option ref)
  : M' (objective_value Measure) :=
  experiment_result <-
    _optimize_latency_and_throughput BOTH launcher_parameters main_parameters ;;
  ret (Pair (latency experiment_result) (throughput experiment_result)).

Definition optimize_latency
    (launcher_parameters : option dict) (main_parameters : option ref)
  : M' (objective_value Measure) :=
  experiment_result <-
    _optimize_latency_and_throughput LATENCY launcher_parameters
      main_parameters ;;
  ret (Single (latency experiment_result)).

Definition optimize_throughput
    (launcher_parameters : option dict) (main_parameters : option ref)
  : M' (objective_value Measure) :=
  experiment_result <-
    _optimize_latency_and_throughput THROUGHPUT launcher_parameters
      main_parameters ;;
  ret (Single (throughput experiment_result)).

(* ---------------------------------------------------------------- *)
(** *** [specialize_objective] *)

(** The dictionary comprehension
    [{k: prepare_parameter_for_optuna(trial, k, v) for k, v in items}]. *)
Fixpoint prepare_items (items : list (string * value)) (acc : dict)
  : M' dict :=
  match items with
  | [] => ret acc
  | (k, v) :: items' =>
      x <- prepare_parameter_for_optuna k v ;;
      prepare_items items' (dict_set acc k x)
  end.

Definition prepared_launcher_parameters (launcher_parameters : option dict)
  : M' dict :=
  let launcher_parameters :=
    match launcher_parameters with Some d => d | None => [] end in
  prepare_items launcher_parameters [].

(** [specialize_objective(optimize_fn, launcher_parameters, main_parameters)]
    is the closure [wrapper]; the model gives the call [wrapper(trial)]. *)
Definition specialize_objective
    (optimize_fn : option dict -> option ref -> M' (objective_value Measure))
    (launcher_parameters : option dict) (main_parameters : option ref)
  : M' (objective_value Measure) :=
  prepared <- prepared_launcher_parameters launcher_parameters ;;
  optimize_fn (Some prepared) main_parameters.

(* ---------------------------------------------------------------- *)
(** *** [optuna_tune] *)

(** The keyword arguments of the driver. *)
Record tune_kwargs : Type := {
  kw_mode : option TuningMode;
  kw_exp_name : option string;
  kw_n_trials : option nat
}.

(** Modelled from the spec: [check_tune_function_kwargs] is defined in
    [hpo/utils.py]; it validates that the control keys mode, experiment name
    and trial count are present and rejects the call with an explicit error
    otherwise. *)
Definition check_tune_function_kwargs (kwargs : tune_kwargs) : Res unit :=
  match kw_mode kwargs, kw_exp_name kwargs, kw_n_trials kwargs with
  | Some _, Some _, Some _ => Ok tt
  | _, _, _ => Raise InvalidArguments
  end.

(** [kwargs[k]] *)
Definition kwargs_getitem {A} (field : option A) (k : string) : Res A :=
  match field with
  | Some a => Ok a
  | None => Raise (KeyError k)
  end.

(** Modelled from the spec: attribute access on the [TuningMode] class of
    [hpo/utils.py], whose members are LATENCY, THROUGHPUT and BOTH; any other
    name is an [AttributeError]. *)
Definition TuningMode_attr (name : string) : Res TuningMode :=
  if String.eqb name "LATENCY" then Ok LATENCY
  else if String.eqb name "THROUGHPUT" then Ok THROUGHPUT
  else if String.eqb name "BOTH" then Ok BOTH
  else Raise (AttributeError name).

(** [os.path.join(a, b)] on a POSIX host. *)
Definition os_path_join (a b : string) : string :=
  if String.prefix "/" b then b
  else if String.eqb a "" then b
  else if String.eqb (String.substring (String.length a - 1) 1 a) "/"
       then (a ++ b)%string
       else (a ++ "/" ++ b)%string.

Definition mode2directions (mode : TuningMode) : direction_kwargs :=
  match mode with
  | LATENCY => direction "minimize"
  | THROUGHPUT => direction "maximize"
  | BOTH => directions ["minimize"; "maximize"]
  end.

Definition mode2sampler (mode : TuningMode) : sampler_class :=
  match mode with
  | LATENCY => TPESampler
  | THROUGHPUT => TPESampler
  | BOTH => NSGAIISampler
  end.

Definition mode2create_study (mode : TuningMode) : study_factory :=
  match mode with
  | LATENCY => create_study
  | THROUGHPUT => create_study
  | BOTH => multi_objective_create_study
  end.

Definition mode2objective (mode : TuningMode)
  : option dict -> option ref -> M' (objective_value Measure) :=
  match mode with
  | LATENCY => optimize_latency
  | THROUGHPUT => optimize_throughput
  | BOTH => optimize_latency_and_throughput
  end.

(** A call recorded in the log, with no result of interest to the model. *)
Definition emit (e : event) : M' unit := fun s => (Ok tt, s, [e]).

(** [joblib.dump(study, study_path)]: the write may fail, for instance when
    the [outputs] directory does not exist. *)
Definition joblib_dump (path : string) : M' unit :=
  fun s =>
    let '(r, e) := dump X (env s) path in
    (r, mkStore e (heap s) (next s), [EvDump path]).

(** [study.optimize(objective, n_trials=n_trials)], the optimiser's trial
    loop: sequential, one call of the objective per trial; no [catch]
    argument is given, so an exception raised by a trial leaves the loop. *)
Fixpoint study_optimize (objective : M' (objective_value Measure))
    (n_trials : nat) : M' unit :=
  match n_trials with
  | O => ret tt
  | S n => objective ;;; study_optimize objective n
  end.

Definition optuna_tune (main_parameters : option ref)
    (launcher_parameters : option dict) (kwargs : tune_kwargs) : M' unit :=
  lift (check_tune_function_kwargs kwargs) ;;;
  mode <- lift (kwargs_getitem (kw_mode kwargs) "mode") ;;
  exp_name <- lift (kwargs_getitem (kw_exp_name kwargs) "exp_name") ;;
  n_trials <- lift (kwargs_getitem (kw_n_trials kwargs) "n_trials") ;;
  emit (EvCreateStudy (mode2create_study mode) (mode2sampler mode)
          (mode2directions mode)) ;;;
  let objective :=
    specialize_objective (mode2objective mode) launcher_parameters
      main_parameters in
  study_optimize objective n_trials ;;;
  let study_path := os_path_join "outputs" (exp_name ++ "_study.pkl")%string in
  joblib_dump study_path ;;;
  latency_and_throughput <- lift (TuningMode_attr "LATENCY_AND_THROUGHPUT") ;;
  if TuningMode_eqb mode latency_and_throughput then
    emit (EvParamImportances (Some 0%nat)) ;;;
    emit (EvParamImportances (Some 1%nat)) ;;;
    let importances_path :=
      os_path_join "outputs" (exp_name ++ "_importances.csv")%string in
    emit (EvToCsv importances_path) ;;;
    let pareto_front_path :=
      os_path_join "outputs" (exp_name ++ "_pareto_front.png")%string in
    emit (EvPlotParetoFront ["Latency"; "Throughput"]) ;;;
    emit (EvWriteImage pareto_front_path)
  else
    emit (EvParamImportances None) ;;;
    let filename := (exp_name ++ "_importances_and_values.csv")%string in
    let path := os_path_join "outputs" filename in
    emit (EvToCsv path).

End Program.

(* ================================================================== *)
(** ** A concrete host for worked examples *)

Module Demo.

(** A sampler that takes the first candidate, a four-core host, a launcher
    that always measures latency 10 and throughput 20. *)
Definition first_choice (e : unit) (name : string) (choices : list value)
  : Res value * unit :=
  (match choices with
   | c :: _ => Ok c
   | [] => Raise (ExternalError "no choice")
   end, e).

Definition externals : Externals unit Z := {|
  sample := first_choice;
  launch := fun e _ _ => (Ok {| latency := 10; throughput := 20 |}, e);
  generate_nb_instances_candidates := fun _ _ _ => [1; 2; 4];
  generate_nb_cores_candidates := fun _ _ _ _ => [1; 2];
  host := {| physical_core_nums := 4 |};
  py_percent_is_zero := fun _ _ => Raise TypeError;
  dump := fun e _ => (Ok tt, e)
|}.

(** A store whose object 0 is the caller's [main_parameters]. *)
Definition store (main_parameters : dict) : Store unit :=
  mkStore tt (fun r => match r with O => main_parameters | _ => [] end) 1%nat.

(** The candidate batch sizes 16, 17 and 32. *)
Definition batch_sizes : dict :=
  [("batch_size", VList [VInt 16; VInt 17; VInt 32])].

(** Launcher parameters that ask for more instances than the host has
    cores, and pin the allocator. *)
Definition pinned : dict :=
  [("instances", VInt 8); ("allocator", VStr "jemalloc")].

(** The configuration the launcher is started with for [pinned]. *)
Definition pinned_cfg : dict :=
  [("instances", VInt 4); ("openmp", VStr "openmp"); ("huge_pages", VStr "on");
   ("allocator", VStr "jemalloc"); ("nb_cores", VInt 1)].

(** Launcher parameters that pin the instance count above the core count
    and the core count per instance. *)
Definition pinned_cores : dict :=
  [("instances", VInt 8); ("nb_cores", VInt 64)].

(** The main parameters the launcher is started with after the filter for
    four instances. *)
Definition batch_sizes_for_four : dict :=
  [("batch_size", VList [VInt 16; VInt 32])].

(** One trial in mode BOTH with [pinned], on the batch sizes above. *)
Definition pinned_trial
  : Res (ExperimentResult Z) * Store unit * list event :=
  _optimize_latency_and_throughput externals BOTH (Some pinned)
    (Some 0%nat) (store batch_sizes).


(** The same host with the instance-count generator returning the given
    candidates. *)
Definition externals_with (candidates : list Z) : Externals unit Z := {|
  sample := first_choice;
  launch := fun e _ _ => (Ok {| latency := 10; throughput := 20 |}, e);
  generate_nb_instances_candidates := fun _ _ _ => candidates;
  generate_nb_cores_candidates := fun _ _ _ _ => [1; 2];
  host := {| physical_core_nums := 4 |};
  py_percent_is_zero := fun _ _ => Raise TypeError;
  dump := fun e _ => (Ok tt, e)
|}.

(** Launcher parameters with the thread runtime as a choice list, the
    allocator as a one-element list and the instance count as a scalar. *)
Definition declared : dict :=
  [("openmp", VList [VStr "iomp"; VStr "openmp"]);
   ("allocator", VList [VStr "tcmalloc"]);
   ("instances", VInt 2)].

(** A scalar batch size. *)
Definition one_batch_size : dict := [("batch_size", VInt 32)].


(** The configuration the launcher is started with for [declared]. *)
Definition declared_cfg : dict :=
  [("instances", VInt 2); ("huge_pages", VStr "on"); ("openmp", VStr "iomp");
   ("allocator", VStr "tcmalloc"); ("nb_cores", VInt 1)].


(** One call of the wrapper in mode LATENCY with [declared], on a scalar
    batch size. *)
Definition declared_trial
  : Res (objective_value Z) * Store unit * list event :=
  specialize_objective externals (mode2objective externals LATENCY)
    (Some declared) (Some 0%nat) (store one_batch_size).

(** One trial with no launcher parameters on a host whose generator gives
    the single instance count 2. *)
Definition sole_trial : Res (ExperimentResult Z) * Store unit * list event :=
  _optimize_latency_and_throughput (externals_with [2]) LATENCY None
    (Some 0%nat) (store one_batch_size).

(** One trial with the instance count pinned to zero, on the candidate
    batch sizes. *)
Definition zero_trial : Res (ExperimentResult Z) * Store unit * list event :=
  _optimize_latency_and_throughput externals LATENCY
    (Some [("instances", VInt 0)]) (Some 0%nat) (store batch_sizes).

(** The keyword arguments of a two-trial run in mode LATENCY named by an
    absolute path. *)
Definition absolute_kwargs : tune_kwargs :=
  {| kw_mode := Some LATENCY; kw_exp_name := Some "/tmp/exp";
     kw_n_trials := Some 2%nat |}.

(** The driver on main parameters without a batch size. *)
Definition orphan_run : Res unit * Store unit * list event :=
  optuna_tune externals (Some 0%nat) None absolute_kwargs (store []).

(** The driver on a scalar batch size, named by an absolute path. *)
Definition absolute_run : Res unit * Store unit * list event :=
  optuna_tune externals (Some 0%nat) None absolute_kwargs
    (store one_batch_size).

(** A host whose generators follow their arguments: the instance count
    generated for an integer batch size is that batch size, and the cores
    per instance are the cores of the host divided by the instance count. *)
Definition scaling : Externals unit Z := {|
  sample := first_choice;
  launch := fun e _ _ => (Ok {| latency := 10; throughput := 20 |}, e);
  generate_nb_instances_candidates :=
    fun batch_size _ _ =>
      match batch_size with VInt b => [b] | _ => [1] end;
  generate_nb_cores_candidates :=
    fun _ _ cpu nb_instances =>
      match nb_instances with
      | Some (VInt n) => [physical_core_nums cpu / n]
      | _ => [1]
      end;
  host := {| physical_core_nums := 4 |};
  py_percent_is_zero := fun _ _ => Raise TypeError;
  dump := fun e _ => (Ok tt, e)
|}.

(** A sampler that refuses an empty choice list and a suggestion for
    ["nb_cores"], and takes the first candidate otherwise. *)
Definition refusing_nb_cores (e : unit) (name : string) (choices : list value)
  : Res value * unit :=
  if String.eqb name "nb_cores" then (Raise (ExternalError "refused"), e)
  else first_choice e name choices.

(** The four-core host with that sampler. *)
Definition refusing : Externals unit Z := {|
  sample := refusing_nb_cores;
  launch := fun e _ _ => (Ok {| latency := 10; throughput := 20 |}, e);
  generate_nb_instances_candidates := fun _ _ _ => [1; 2; 4];
  generate_nb_cores_candidates := fun _ _ _ _ => [1; 2];
  host := {| physical_core_nums := 4 |};
  py_percent_is_zero := fun _ _ => Raise TypeError;
  dump := fun e _ => (Ok tt, e)
|}.

(** The parameters built before the merge in the trial with [pinned], and
    the suggestions asked for them. *)
Definition pinned_defaults : dict :=
  [("instances", VInt 1); ("openmp", VStr "openmp"); ("huge_pages", VStr "on")].

Definition pinned_suggestions : list event :=
  [EvSuggest "openmp" [VStr "openmp"; VStr "iomp"];
   EvSuggest "huge_pages" [VStr "on"; VStr "off"]].

(** Launcher parameters with the instance count as a float. *)
Definition fractional : dict :=
  [("instances", VFloat (S754_finite false 5 (-1)))].

(** The keyword arguments of a two-trial run in mode BOTH. *)
Definition both_kwargs : tune_kwargs :=
  {| kw_mode := Some BOTH; kw_exp_name := Some "exp";
     kw_n_trials := Some 2%nat |}.

(** The driver on the end-to-end scenario of mode BOTH with a pinned
    allocator. *)
Definition both_run : Res unit * Store unit * list event :=
  optuna_tune externals (Some 0%nat) (Some [("allocator", VStr "jemalloc")])
    both_kwargs (store batch_sizes).

End Demo.

(* ================================================================== *)
(** ** Vocabulary of the contract *)

(** [launcher_parameters] after the [None] check. *)
Definition or_empty (launcher_parameters : option dict) : dict :=
  match launcher_parameters with Some d => d | None => [] end.

(** An event is a categorical suggestion for one of the given names. *)
Definition is_suggest_in (names : list string) (e : event) : Prop :=
  exists name choices, e = EvSuggest name choices /\ In name names.

Definition only_suggests (names : list string) (evs : list event) : Prop :=
  Forall (is_suggest_in names) evs.

(** The events a trial can make: suggestions and the launch. *)
Definition is_trial_event (e : event) : Prop :=
  match e with
  | EvSuggest _ _ | EvLaunch _ _ => True
  | _ => False
  end.

(** The event is the start of the launcher. *)
Definition is_launch (e : event) : bool :=
  match e with
  | EvLaunch _ _ => true
  | _ => false
  end.

(** How many times the launcher was started. *)
Definition launches (evs : list event) : nat :=
  length (filter is_launch evs).

(** The events of the second half of a trial: the suggestion for
    ["nb_cores"] and the launch. *)
Definition is_late_event (e : event) : Prop :=
  match e with
  | EvSuggest name _ => name = "nb_cores"
  | EvLaunch _ _ => True
  | _ => False
  end.

(** The value is an [int]. *)
Definition is_int (v : value) : Prop := exists a, v = VInt a.

(** An integer batch size is evenly divisible by the instance count. *)
Definition divisible (n : Z) (size : value) : bool :=
  match size with
  | VInt a => a mod n =? 0
  | _ => false
  end.

(** The instance count after the clamp of lines 96-97, for a value that
    was found to exceed the core count or not. *)
Definition clamp (cores : Z) (v : value) (exceeds : bool) : value :=
  if exceeds then VInt cores else v.

(** The value under a key of the assembled configuration that the override
    rule leads to: the caller's value, the instance count being held to the
    physical core count. *)
Definition overridden (cores : Z) (k : string) (v : value) : value :=
  if String.eqb k "instances" then
    match py_gt v cores with
    | Ok exceeds => clamp cores v exceeds
    | Raise _ => v
    end
  else v.

Section Vocabulary.

Context {Env Measure : Type}.
Variable X : Externals Env Measure.

(** A store whose only object, at reference 0, is the given dictionary. *)
Definition store_of (e : Env) (main_parameters : dict) : Store Env :=
  mkStore e (fun r => match r with O => main_parameters | _ => [] end) 1%nat.

(** The candidate set for ["nb_cores"]: the generator applied to the dummy
    batch size 1 and the instance count. *)
Definition nb_cores_choices (mode : TuningMode) (instances : value)
  : list value :=
  map VInt
    (generate_nb_cores_candidates X (VInt 1) mode (host X) (Some instances)).


(** The object the trial works on and the store it works in, after lines
    56-58: the caller's object, or a fresh empty dictionary. *)
Definition trial_start (main_parameters : option ref) (s : Store Env)
  : ref * Store Env :=
  match main_parameters with
  | Some r => (r, s)
  | None =>
      (next s,
       mkStore (env s)
               (fun r' => if Nat.eqb r' (next s) then [] else heap s r')
               (S (next s)))
  end.

(** The exception [e] was raised by one of the suggestions in [evs]. *)
Definition suggestion_raised (evs : list event) (e : exn) : Prop :=
  exists e0 name choices,
    In (EvSuggest name choices) evs /\
    fst (sample X e0 name choices) = Raise e.

(** Every event a computation makes satisfies [P]. *)
Definition emits {A} (P : event -> Prop) (m : M Env A) : Prop :=
  forall s r s' evs, m s = (r, s', evs) -> Forall P evs.

(** Between two stores nothing has moved in the heap but, at most, the
    ["batch_size"] entry of the object [main]. *)
Definition touches_only_batch_size (main : ref) (s s' : Store Env) : Prop :=
  next s' = next s /\
  (forall r, r <> main -> heap s' r = heap s r) /\
  (forall k, k <> "batch_size" ->
             dict_get (heap s' main) k = dict_get (heap s main) k).

(** The choices a default is sampled from, for each of the four names
    sampled before the merge: fixed lists for three of them, the generated
    instance counts for the batch size of the main parameters. *)
Definition default_choices (mode : TuningMode) (main_parameters : dict)
    (name : string) : option (list value) :=
  if String.eqb name "instances" then
    match dict_get main_parameters "batch_size" with
    | Some batch_size =>
        Some (map VInt
                (generate_nb_instances_candidates X batch_size mode (host X)))
    | None => None
    end
  else if String.eqb name "openmp" then Some [VStr "openmp"; VStr "iomp"]
  else if String.eqb name "allocator"
       then Some [VStr "default"; VStr "tcmalloc"; VStr "jemalloc"]
  else if String.eqb name "huge_pages" then Some [VStr "on"; VStr "off"]
  else None.

(** An event made before the merge is a suggestion for a name the caller
    did not supply, asked with the choices of that name. *)
Definition is_default_suggestion (mode : TuningMode) (lp main_parameters : dict)
    (e : event) : Prop :=
  match e with
  | EvSuggest name choices =>
      dict_get lp name = None /\
      default_choices mode main_parameters name = Some choices
  | _ => False
  end.

(** The override invariant as the contract words it: whatever the
    launcher is started with holds, under every key the caller supplied, the
    caller's value. *)
Definition override_invariant (mode : TuningMode) (lp : dict)
    (main_parameters : option ref) (s : Store Env) : Prop :=
  forall cfg m k v,
    In (EvLaunch cfg m)
       (snd (_optimize_latency_and_throughput X mode (Some lp)
               main_parameters s)) ->
    dict_get lp k = Some v ->
    dict_get cfg k = Some v.

(** The frame condition as the contract words it: a trial leaves the
    caller's [main_parameters] object as it found it. *)
Definition main_parameters_unchanged (mode : TuningMode) (lp : option dict)
    (main : ref) (s : Store Env) : Prop :=
  heap (snd (fst (mode2objective X mode lp (Some main) s))) main
  = heap s main.


(** The independence the contract words for the core-count candidates:
    two trials that differ in nothing but the batch size of the main
    parameters ask their ["nb_cores"] suggestions with the same candidates. *)
Definition nb_cores_choices_ignore_batch_size (mode : TuningMode)
    (lp : option dict) (e : Env) (batch_size batch_size' : value) : Prop :=
  forall choices choices',
    In (EvSuggest "nb_cores" choices)
       (snd (_optimize_latency_and_throughput X mode lp (Some 0%nat)
               (store_of e [("batch_size", batch_size)]))) ->
    In (EvSuggest "nb_cores" choices')
       (snd (_optimize_latency_and_throughput X mode lp (Some 0%nat)
               (store_of e [("batch_size", batch_size')]))) ->
    choices = choices'.

End Vocabulary.

(* ================================================================== *)
(** ** Dictionaries *)

Lemma dict_get_set_eq (d : dict) (k : string) (v : value) :
  dict_get (dict_set d k v) k = Some v.
Proof.
  induction d as [|[k' v'] d IH]; simpl.
  - now rewrite String.eqb_refl.
  - destruct (String.eqb k' k) eqn:E; simpl.
    + now rewrite String.eqb_refl.
    + now rewrite E.
Qed.

Lemma dict_get_set_neq (d : dict) (k k' : string) (v : value) :
  k <> k' -> dict_get (dict_set d k v) k' = dict_get d k'.
Proof.
  intros Hne. induction d as [|[k0 v0] d IH]; simpl.
  - destruct (String.eqb_spec k k'); [contradiction | reflexivity].
  - destruct (String.eqb_spec k0 k) as [->|Hk]; simpl.
    + destruct (String.eqb_spec k k'); [contradiction | reflexivity].
    + destruct (String.eqb_spec k0 k'); [reflexivity | exact IH].
Qed.

Lemma dict_get_None_keys (d : dict) (k : string) :
  dict_get d k = None <-> ~ In k (keys d).
Proof.
  induction d as [|[k0 v0] d IH]; simpl.
  - tauto.
  - destruct (String.eqb_spec k0 k) as [->|Hk].
    + split; [discriminate | intros H; exfalso; apply H; now left].
    + rewrite IH. tauto.
Qed.

Lemma dict_get_Some_keys (d : dict) (k : string) (v : value) :
  dict_get d k = Some v -> In k (keys d).
Proof.
  intros H. destruct (in_dec string_dec k (keys d)) as [Hin|Hout]; [exact Hin|].
  apply dict_get_None_keys in Hout. congruence.
Qed.

Lemma keys_dict_set (d : dict) (k k' : string) (v : value) :
  In k' (keys (dict_set d k v)) <-> k' = k \/ In k' (keys d).
Proof.
  induction d as [|[k0 v0] d IH]; simpl.
  - intuition congruence.
  - destruct (String.eqb_spec k0 k) as [->|Hk]; simpl.
    + intuition congruence.
    + rewrite IH. intuition congruence.
Qed.

Lemma NoDup_keys_dict_set (d : dict) (k : string) (v : value) :
  NoDup (keys d) -> NoDup (keys (dict_set d k v)).
Proof.
  induction d as [|[k0 v0] d IH]; simpl; intros Hnd.
  - constructor; [intros [] | constructor].
  - inversion Hnd as [|? ? Hout Hnd']; subst.
    destruct (String.eqb_spec k0 k) as [->|Hk]; simpl.
    + now constructor.
    + constructor; [|now apply IH].
      rewrite keys_dict_set. intros [->|Hin]; [now apply Hk | now apply Hout].
Qed.

(** After [d.update(other)], a key of [other] holds the value [other] gives
    it, and every other key holds what it held in [d]. *)
Lemma dict_get_update (other d : dict) (k : string) :
  NoDup (keys other) ->
  dict_get (dict_update d other) k =
  match dict_get other k with
  | Some v => Some v
  | None => dict_get d k
  end.
Proof.
  unfold dict_update. revert d.
  induction other as [|[k0 v0] other IH]; simpl; intros d Hnd.
  - reflexivity.
  - inversion Hnd as [|? ? Hout Hnd']; subst.
    rewrite (IH _ Hnd').
    destruct (String.eqb_spec k0 k) as [->|Hk].
    + apply dict_get_None_keys in Hout. rewrite Hout.
      apply dict_get_set_eq.
    + destruct (dict_get other k); [reflexivity|].
      now apply dict_get_set_neq.
Qed.

Lemma dict_mem_true (d : dict) (k : string) :
  dict_mem k d = true <-> exists v, dict_get d k = Some v.
Proof.
  unfold dict_mem. destruct (dict_get d k).
  - split; [eauto | reflexivity].
  - split; [discriminate | intros [v Hv]; discriminate].
Qed.

Lemma dict_mem_false (d : dict) (k : string) :
  dict_mem k d = false <-> dict_get d k = None.
Proof.
  unfold dict_mem. destruct (dict_get d k); split; congruence.
Qed.

Lemma dict_update_keeps (other d : dict) (k : string) :
  dict_get d k <> None -> dict_get (dict_update d other) k <> None.
Proof.
  unfold dict_update. revert d.
  induction other as [|[k0 v0] other IH]; simpl; intros d Hd; [exact Hd|].
  apply IH. destruct (string_dec k0 k) as [->|Hne].
  - rewrite dict_get_set_eq. discriminate.
  - now rewrite dict_get_set_neq.
Qed.

Lemma dict_get_update_absent (other d : dict) (k : string) :
  dict_get other k = None ->
  dict_get (dict_update d other) k = dict_get d k.
Proof.
  unfold dict_update. revert d.
  induction other as [|[k0 v0] other IH]; simpl; intros d Hk; [reflexivity|].
  destruct (String.eqb_spec k0 k) as [->|Hne]; [discriminate|].
  rewrite (IH _ Hk). now apply dict_get_set_neq.
Qed.

Lemma dict_set_same (d : dict) (k : string) (v : value) :
  dict_get d k = Some v -> dict_set d k v = d.
Proof.
  induction d as [|[k0 v0] d IH]; simpl; [discriminate|].
  destruct (String.eqb_spec k0 k) as [->|Hne].
  - intros H. now inversion H.
  - intros H. now rewrite (IH H).
Qed.

(* ================================================================== *)
(** ** Runs of the monad *)

Section Runs.

Context {Env Measure : Type}.
Variable X : Externals Env Measure.

Lemma bind_run {A B} (m : M Env A) (f : A -> M Env B) s r s' evs :
  bind m f s = (r, s', evs) ->
  (exists a s1 e1 e2,
      m s = (Ok a, s1, e1) /\ f a s1 = (r, s', e2) /\ evs = e1 ++ e2)
  \/ (exists e, m s = (Raise e, s', evs) /\ r = Raise e).
Proof.
  unfold bind. destruct (m s) as [[[a|e] s1] e1].
  - destruct (f a s1) as [[r2 s2] e2] eqn:Hf. intros H. inversion H; subst.
    left. exists a, s1, e1, e2. auto.
  - intros H. inversion H; subst. right. exists e. auto.
Qed.

Lemma ret_run {A} (a : A) (s : Store Env) r s' evs :
  ret a s = (r, s', evs) -> r = Ok a /\ s' = s /\ evs = [].
Proof. unfold ret. intros H. inversion H. auto. Qed.

Lemma lift_run {A} (x : Res A) (s : Store Env) r s' evs :
  lift x s = (r, s', evs) -> r = x /\ s' = s /\ evs = [].
Proof. unfold lift. intros H. inversion H. auto. Qed.

Lemma suggest_run name choices (s : Store Env) r s' evs :
  suggest_categorical X name choices s = (r, s', evs) ->
  r = fst (sample X (env s) name choices) /\
  heap s' = heap s /\ next s' = next s /\
  evs = [EvSuggest name choices].
Proof.
  unfold suggest_categorical. destruct (sample X (env s) name choices).
  intros H. inversion H. auto.
Qed.

Lemma getitem_run obj k (s : Store Env) r s' evs :
  getitem obj k s = (r, s', evs) ->
  s' = s /\ evs = [] /\
  match dict_get (heap s obj) k with
  | Some v => r = Ok v
  | None => r = Raise (KeyError k)
  end.
Proof.
  unfold getitem. destruct (dict_get (heap s obj) k); intros H;
    inversion H; auto.
Qed.

Lemma setitem_run obj k v (s : Store Env) r s' evs :
  setitem obj k v s = (r, s', evs) ->
  r = Ok tt /\ evs = [] /\ next s' = next s /\
  forall r', heap s' r' =
             if Nat.eqb r' obj then dict_set (heap s obj) k v else heap s r'.
Proof. unfold setitem. intros H. inversion H. simpl. auto. Qed.

Lemma launch_run cfg main (s : Store Env) r s' evs :
  launch_and_wait X cfg main s = (r, s', evs) ->
  r = fst (launch X (env s) cfg (heap s main)) /\
  heap s' = heap s /\ next s' = next s /\
  evs = [EvLaunch cfg (heap s main)].
Proof.
  unfold launch_and_wait. destruct (launch X (env s) cfg (heap s main)).
  intros H. inversion H. auto.
Qed.

Lemma bind_ok {A B} (m : M Env A) (f : A -> M Env B) s a s1 e1 r s2 e2 :
  m s = (Ok a, s1, e1) -> f a s1 = (r, s2, e2) ->
  bind m f s = (r, s2, e1 ++ e2).
Proof. intros Hm Hf. unfold bind. now rewrite Hm, Hf. Qed.

(** The two monad laws that regroup a sequence of steps. *)
Lemma bind_assoc {A B C} (m : M Env A) (f : A -> M Env B) (g : B -> M Env C)
    s :
  bind (bind m f) g s = bind m (fun a => bind (f a) g) s.
Proof.
  unfold bind. destruct (m s) as [[[a|e] s1] e1]; [|reflexivity].
  destruct (f a s1) as [[[b|e] s2] e2]; [|reflexivity].
  destruct (g b s2) as [[r s3] e3]. now rewrite app_assoc.
Qed.

Lemma bind_ext {A B} (m : M Env A) (f g : A -> M Env B) s :
  (forall a s1, f a s1 = g a s1) -> bind m f s = bind m g s.
Proof.
  intros H. unfold bind. destruct (m s) as [[[a|e] s1] e1]; [|reflexivity].
  now rewrite H.
Qed.

(** Rules to read the events of a computation off its shape. *)
Lemma emits_bind {A B} P (m : M Env A) (f : A -> M Env B) :
  emits P m -> (forall a, emits P (f a)) -> emits P (bind m f).
Proof.
  intros Hm Hf s r s' evs H. apply bind_run in H.
  destruct H as [(a & s1 & e1 & e2 & H1 & H2 & ->) | (e & H1 & ->)].
  - apply Forall_app. split; [exact (Hm _ _ _ _ H1) | exact (Hf _ _ _ _ _ H2)].
  - exact (Hm _ _ _ _ H1).
Qed.

Lemma emits_ret {A} P (a : A) : emits (Env:=Env) P (ret a).
Proof.
  intros s r s' evs H. apply ret_run in H. destruct H as (_ & _ & ->).
  constructor.
Qed.

Lemma emits_lift {A} P (x : Res A) : emits (Env:=Env) P (lift x).
Proof.
  intros s r s' evs H. apply lift_run in H. destruct H as (_ & _ & ->).
  constructor.
Qed.

Lemma emits_getitem P obj k : emits (Env:=Env) P (getitem obj k).
Proof.
  intros s r s' evs H. apply getitem_run in H. destruct H as (_ & -> & _).
  constructor.
Qed.

Lemma emits_setitem P obj k v : emits (Env:=Env) P (setitem obj k v).
Proof.
  intros s r s' evs H. apply setitem_run in H. destruct H as (_ & -> & _).
  constructor.
Qed.

Lemma emits_suggest (P : event -> Prop) name c :
  P (EvSuggest name c) -> emits P (suggest_categorical X name c).
Proof.
  intros HP s r s' evs H. apply suggest_run in H.
  destruct H as (_ & _ & _ & ->). now repeat constructor.
Qed.

Lemma emits_launch (P : event -> Prop) cfg main :
  (forall m, P (EvLaunch cfg m)) -> emits P (launch_and_wait X cfg main).
Proof.
  intros HP s r s' evs H. apply launch_run in H.
  destruct H as (_ & _ & _ & ->). now repeat constructor.
Qed.

Lemma only_suggests_app names a b :
  only_suggests names a -> only_suggests names b ->
  only_suggests names (a ++ b).
Proof. unfold only_suggests. intros. apply Forall_app. auto. Qed.

Lemma only_suggests_one names name c :
  In name names -> only_suggests names [EvSuggest name c].
Proof. intros H. constructor; [|constructor]. exists name, c. auto. Qed.

Lemma only_suggests_weaken names names' evs :
  (forall n, In n names -> In n names') ->
  only_suggests names evs -> only_suggests names' evs.
Proof.
  intros Hsub H. eapply Forall_impl; [|exact H].
  intros ev (name & c & -> & Hin). exists name, c. auto.
Qed.

Lemma only_suggests_no_launch names evs cfg m :
  only_suggests names evs -> ~ In (EvLaunch cfg m) evs.
Proof.
  intros Hall Hin. unfold only_suggests in Hall.
  rewrite Forall_forall in Hall.
  destruct (Hall _ Hin) as (name & c & Heq & _). discriminate.
Qed.

Lemma only_suggests_trial_events names evs :
  only_suggests names evs -> Forall is_trial_event evs.
Proof.
  apply Forall_impl. intros e (name & c & -> & _). exact I.
Qed.

Lemma launches_app a b : launches (a ++ b) = (launches a + launches b)%nat.
Proof. unfold launches. now rewrite filter_app, length_app. Qed.

Lemma launches_only_suggests names evs :
  only_suggests names evs -> launches evs = 0%nat.
Proof.
  unfold launches. induction 1 as [|e evs (name & c & -> & _) _ IH];
    simpl; [reflexivity | exact IH].
Qed.

End Runs.


(* ================================================================== *)
(** ** The two stages of a trial *)

Section Stages.

Context {Env Measure : Type}.
Variable X : Externals Env Measure.

Ltac bind_inv H a s1 ev Hm :=
  apply bind_run in H;
  let rest := fresh "rest" in
  let e := fresh "e" in
  destruct H as [(a & s1 & ev & rest & Hm & H & ->) | (e & Hm & ->)].

Lemma suggestion_raised_app_l a b e :
  suggestion_raised X a e -> suggestion_raised X (a ++ b) e.
Proof.
  intros (e0 & name & c & Hin & Hs). exists e0, name, c.
  split; [apply in_or_app; now left | exact Hs].
Qed.

Lemma suggestion_raised_app_r a b e :
  suggestion_raised X b e -> suggestion_raised X (a ++ b) e.
Proof.
  intros (e0 & name & c & Hin & Hs). exists e0, name, c.
  split; [apply in_or_app; now right | exact Hs].
Qed.

(** A trial is the defaults stage followed by the merge-and-launch stage. *)
Lemma optimize_split mode lp mp (s : Store Env) :
  _optimize_latency_and_throughput X mode lp mp s
  = bind (match mp with Some r => ret r | None => new_dict end)
      (fun main =>
         bind (default_parameters X mode (or_empty lp) main)
           (merge_and_launch X mode (or_empty lp) main)) s.
Proof.
  unfold _optimize_latency_and_throughput. fold (or_empty lp).
  apply bind_ext. intros main s1.
  unfold default_parameters.
  rewrite bind_assoc. apply bind_ext. intros p1 s2.
  rewrite bind_assoc. apply bind_ext. intros p2 s3.
  rewrite bind_assoc. apply bind_ext. intros p3 s4.
  reflexivity.
Qed.

Lemma optimize_stages mode lp mp (s : Store Env) r s' evs :
  _optimize_latency_and_throughput X mode lp mp s = (r, s', evs) ->
  exists r1 s1 pre,
    default_parameters X mode (or_empty lp) (fst (trial_start mp s))
      (snd (trial_start mp s)) = (r1, s1, pre) /\
    match r1 with
    | Raise e => r = Raise e /\ s' = s1 /\ evs = pre
    | Ok d =>
        exists rest,
          merge_and_launch X mode (or_empty lp) (fst (trial_start mp s)) d s1
          = (r, s', rest) /\
          evs = pre ++ rest
    end.
Proof.
  rewrite optimize_split. unfold bind at 1.
  assert (Hstart : match mp with Some r => ret r | None => new_dict end s
                   = (Ok (fst (trial_start mp s)), snd (trial_start mp s), []))
    by (destruct mp; reflexivity).
  rewrite Hstart. intros H.
  destruct (bind (default_parameters X mode (or_empty lp)
                    (fst (trial_start mp s)))
              (merge_and_launch X mode (or_empty lp) (fst (trial_start mp s)))
              (snd (trial_start mp s)))
    as [[r0 s0] evs0] eqn:Hb.
  inversion H; subst. clear H.
  apply bind_run in Hb.
  destruct Hb as [(d & s1 & e1 & e2 & Hm & Hk & ->) | (e & Hm & ->)].
  - exists (Ok d), s1, e1. split; [exact Hm|]. exists e2. auto.
  - exists (Raise e), s', evs. auto.
Qed.

(* ---------------------------------------------------------------- *)
(** *** The defaults stage *)

Lemma instances_block_exact mode (lp p : dict) main (s : Store Env) r s1 ev :
  (if negb (dict_mem "instances" lp) then
     batch_size <- getitem main "batch_size" ;;
     let candidates :=
       generate_nb_instances_candidates X batch_size mode (host X) in
     if (1 <? Z.of_nat (length candidates)) then
       v <- suggest_categorical X "instances" (map VInt candidates) ;;
       ret (dict_set p "instances" v)
     else
       v <- lift (first_item candidates) ;;
       ret (dict_set p "instances" (VInt v))
   else ret p) s = (r, s1, ev) ->
  heap s1 = heap s /\ next s1 = next s /\
  match dict_get lp "instances" with
  | Some _ => r = Ok p /\ ev = []
  | None =>
      match dict_get (heap s main) "batch_size" with
      | None => r = Raise (KeyError "batch_size") /\ s1 = s /\ ev = []
      | Some bs =>
          match generate_nb_instances_candidates X bs mode (host X) with
          | [] => r = Raise IndexError /\ s1 = s /\ ev = []
          | [c] => r = Ok (dict_set p "instances" (VInt c)) /\ ev = []
          | c :: cs =>
              ev = [EvSuggest "instances" (map VInt (c :: cs))] /\
              r = match fst (sample X (env s) "instances"
                               (map VInt (c :: cs))) with
                  | Ok v => Ok (dict_set p "instances" v)
                  | Raise e => Raise e
                  end
          end
      end
  end.
Proof.
  unfold dict_mem. destruct (dict_get lp "instances") as [v|]; cbn [negb].
  - intros H. inversion H. auto.
  - intros H. apply bind_run in H.
    destruct H as [(bs & s2 & e1 & e2 & Hm & Hk & ->) | (e & Hm & ->)];
      apply getitem_run in Hm; destruct Hm as (-> & -> & Hbs);
      destruct (dict_get (heap s main) "batch_size") as [bs0|];
      try discriminate.
    2:{ inversion Hbs. auto. }
    inversion Hbs; subst bs0. clear Hbs. cbv zeta in Hk.
    destruct (generate_nb_instances_candidates X bs mode (host X))
      as [|c [|c' cs]] eqn:Hc.
    + inversion Hk. auto.
    + inversion Hk. auto.
    + assert (Hlen : (1 <? Z.of_nat (length (c :: c' :: cs))) = true).
      { apply Z.ltb_lt. simpl length. lia. }
      rewrite Hlen in Hk. apply bind_run in Hk.
      destruct Hk as [(v & s3 & e3 & e4 & Hm & Hk & ->) | (e & Hm & ->)];
        apply (suggest_run X) in Hm; destruct Hm as (Hv & Hh & Hn & ->).
      * apply ret_run in Hk. destruct Hk as (-> & -> & ->).
        rewrite <- Hv. auto.
      * rewrite <- Hv. auto.
Qed.

Lemma default_block_exact name choices (lp p : dict) (s : Store Env) r s1 ev :
  (if negb (dict_mem name lp)
   then v <- suggest_categorical X name choices ;; ret (dict_set p name v)
   else ret p) s = (r, s1, ev) ->
  heap s1 = heap s /\ next s1 = next s /\
  match dict_get lp name with
  | Some _ => r = Ok p /\ ev = []
  | None =>
      ev = [EvSuggest name choices] /\
      r = match fst (sample X (env s) name choices) with
          | Ok v => Ok (dict_set p name v)
          | Raise e => Raise e
          end
  end.
Proof.
  unfold dict_mem. destruct (dict_get lp name) as [v|]; cbn [negb].
  - intros H. inversion H. auto.
  - intros H. apply bind_run in H.
    destruct H as [(v & s3 & e3 & e4 & Hm & Hk & ->) | (e & Hm & ->)];
      apply (suggest_run X) in Hm; destruct Hm as (Hv & Hh & Hn & ->).
    + apply ret_run in Hk. destruct Hk as (-> & -> & ->).
      rewrite <- Hv. auto.
    + rewrite <- Hv. auto.
Qed.

(** One of the three blocks that sample a default from a fixed list. *)
Lemma default_block_run mode name choices (lp md p : dict) (s : Store Env)
    r s1 ev :
  default_choices X mode md name = Some choices ->
  name <> "instances" ->
  (if negb (dict_mem name lp)
   then v <- suggest_categorical X name choices ;; ret (dict_set p name v)
   else ret p) s = (r, s1, ev) ->
  heap s1 = heap s /\ next s1 = next s /\
  Forall (is_default_suggestion X mode lp md) ev /\
  (forall ch, ~ In (EvSuggest "instances" ch) ev) /\
  ((exists p', r = Ok p' /\
               forall k, k <> name -> dict_get p' k = dict_get p k)
   \/ (exists e, r = Raise e /\ suggestion_raised X ev e)).
Proof.
  intros Hch Hname H. apply default_block_exact in H.
  destruct H as (Hh & Hn & H). split; [exact Hh|]. split; [exact Hn|].
  destruct (dict_get lp name) eqn:Hlp.
  - destruct H as (-> & ->). split; [constructor|]. split; [intros ch []|].
    left. exists p. auto.
  - destruct H as (-> & ->).
    split; [constructor; [split; assumption | constructor]|].
    split.
    + intros ch [Hin|[]]. injection Hin as Hc _. now apply Hname.
    + destruct (fst (sample X (env s) name choices)) as [v|e] eqn:Hs.
      * left. exists (dict_set p name v). split; [reflexivity|].
        intros k Hk. now apply dict_get_set_neq.
      * right. exists e. split; [reflexivity|].
        exists (env s), name, choices. split; [now left | exact Hs].
Qed.

(** What the defaults stage does, case by case. *)
Lemma default_parameters_run mode lp main (s : Store Env) r s1 pre :
  default_parameters X mode lp main s = (r, s1, pre) ->
  heap s1 = heap s /\ next s1 = next s /\
  Forall (is_default_suggestion X mode lp (heap s main)) pre /\
  match dict_get lp "instances" with
  | Some _ =>
      (forall ch, ~ In (EvSuggest "instances" ch) pre) /\
      ((exists d, r = Ok d /\ dict_get d "instances" = Some (VInt 1))
       \/ (exists e, r = Raise e /\ suggestion_raised X pre e))
  | None =>
      match dict_get (heap s main) "batch_size" with
      | None => r = Raise (KeyError "batch_size") /\ s1 = s /\ pre = []
      | Some bs =>
          match generate_nb_instances_candidates X bs mode (host X) with
          | [] => r = Raise IndexError /\ s1 = s /\ pre = []
          | [c] =>
              (forall ch, ~ In (EvSuggest "instances" ch) pre) /\
              ((exists d, r = Ok d /\ dict_get d "instances" = Some (VInt c))
               \/ (exists e, r = Raise e /\ suggestion_raised X pre e))
          | c :: cs =>
              In (EvSuggest "instances" (map VInt (c :: cs))) pre /\
              ((exists d x,
                   r = Ok d /\
                   fst (sample X (env s) "instances" (map VInt (c :: cs)))
                   = Ok x /\
                   dict_get d "instances" = Some x)
               \/ (exists e, r = Raise e /\ suggestion_raised X pre e))
          end
      end
  end.
Proof.
  unfold default_parameters. intros H.
  apply bind_run in H.
  destruct H as [(p1 & s2 & ev1 & r1 & Hm1 & H & ->) | (e & Hm1 & ->)];
    apply (instances_block_exact mode lp _ main) in Hm1;
    destruct Hm1 as (Hh1 & Hn1 & H1).
  2:{ split; [exact Hh1|]. split; [exact Hn1|].
      destruct (dict_get lp "instances") eqn:Hi; [destruct H1; discriminate|].
      destruct (dict_get (heap s main) "batch_size") as [bs|] eqn:Hbs.
      - destruct (generate_nb_instances_candidates X bs mode (host X))
          as [|c [|c' cs]] eqn:Hc.
        + destruct H1 as (Hr & -> & ->). split; [constructor|]. auto.
        + destruct H1; discriminate.
        + destruct H1 as (-> & Hr).
          assert (Hdef : is_default_suggestion X mode lp (heap s main)
                           (EvSuggest "instances" (map VInt (c :: c' :: cs)))).
          { simpl. split; [exact Hi|]. unfold default_choices. simpl.
            rewrite Hbs, Hc. reflexivity. }
          split; [constructor; [exact Hdef | constructor]|].
          split; [now left|]. right. exists e. split; [reflexivity|].
          exists (env s), "instances", (map VInt (c :: c' :: cs)).
          split; [now left|].
          destruct (fst (sample X (env s) "instances"
                           (map VInt (c :: c' :: cs)))); [discriminate|].
          congruence.
      - destruct H1 as (Hr & -> & ->). split; [constructor|]. auto. }
  (* the three later blocks *)
  assert (Hlate :
            heap s1 = heap s2 /\ next s1 = next s2 /\
            Forall (is_default_suggestion X mode lp (heap s main)) r1 /\
            (forall ch, ~ In (EvSuggest "instances" ch) r1) /\
            ((exists d, r = Ok d /\
                        dict_get d "instances" = dict_get p1 "instances")
             \/ (exists e, r = Raise e /\ suggestion_raised X r1 e))).
  { clear H1 Hh1 Hn1.
    apply bind_run in H.
    destruct H as [(p2 & s3 & ev2 & r2 & Hm2 & H & ->) | (e & Hm2 & ->)];
      apply (default_block_run mode _ _ lp (heap s main)) in Hm2;
      try reflexivity; try discriminate;
      destruct Hm2 as (Hh2 & Hn2 & Ha2 & Hi2 & Ho2).
    2:{ repeat split; auto. destruct Ho2 as [(p' & Hc & _)|Hr];
          [discriminate | now right]. }
    destruct Ho2 as [(p' & Hp' & Hk2) | (e & Hc & _)]; [|discriminate].
    injection Hp' as <-.
    apply bind_run in H.
    destruct H as [(p3 & s4 & ev3 & ev4 & Hm3 & H & ->) | (e & Hm3 & ->)];
      apply (default_block_run mode _ _ lp (heap s main)) in Hm3;
      try reflexivity; try discriminate;
      destruct Hm3 as (Hh3 & Hn3 & Ha3 & Hi3 & Ho3).
    2:{ split; [congruence|]. split; [congruence|].
        split; [apply Forall_app; auto|]. split.
        - intros ch Hin. apply in_app_or in Hin.
          destruct Hin as [Hin|Hin]; [now apply (Hi2 ch) | now apply (Hi3 ch)].
        - destruct Ho3 as [(p' & Hc & _)|(e' & He' & Hr)]; [discriminate|].
          right. exists e'. split; [exact He'|].
          now apply suggestion_raised_app_r. }
    destruct Ho3 as [(p' & Hp' & Hk3) | (e & Hc & _)]; [|discriminate].
    injection Hp' as <-.
    apply (default_block_run mode _ _ lp (heap s main)) in H;
      try reflexivity; try discriminate.
    destruct H as (Hh4 & Hn4 & Ha4 & Hi4 & Ho4).
    split; [congruence|]. split; [congruence|].
    split; [repeat (apply Forall_app; split); auto|]. split.
    - intros ch Hin. apply in_app_or in Hin. destruct Hin as [Hin|Hin];
        [now apply (Hi2 ch)|].
      apply in_app_or in Hin. destruct Hin as [Hin|Hin];
        [now apply (Hi3 ch) | now apply (Hi4 ch)].
    - destruct Ho4 as [(d & -> & Hk4) | (e & -> & Hr)].
      + left. exists d. split; [reflexivity|].
        rewrite Hk4, Hk3, Hk2 by discriminate. reflexivity.
      + right. exists e. split; [reflexivity|].
        now apply suggestion_raised_app_r, suggestion_raised_app_r. }
  destruct Hlate as (Hh & Hn & Hall & Hno & Hout).
  split; [congruence|]. split; [congruence|].
  assert (Hout' :
            forall v, dict_get p1 "instances" = Some v ->
                      (exists d, r = Ok d /\ dict_get d "instances" = Some v)
                      \/ (exists e, r = Raise e /\
                                    suggestion_raised X (ev1 ++ r1) e)).
  { intros v Hv. destruct Hout as [(d & -> & Hd) | (e & -> & Hr)].
    - left. exists d. split; [reflexivity | congruence].
    - right. exists e. split; [reflexivity|].
      now apply suggestion_raised_app_r. }
  destruct (dict_get lp "instances") eqn:Hi.
  - destruct H1 as (Hp1 & ->). injection Hp1 as ->. simpl.
    split; [exact Hall|]. split; [exact Hno|].
    apply Hout'. reflexivity.
  - destruct (dict_get (heap s main) "batch_size") as [bs|] eqn:Hbs;
      [|destruct H1; discriminate].
    destruct (generate_nb_instances_candidates X bs mode (host X))
      as [|c [|c' cs]] eqn:Hc.
    + destruct H1; discriminate.
    + destruct H1 as (Hp1 & ->). injection Hp1 as ->. simpl.
      split; [exact Hall|]. split; [exact Hno|].
      apply Hout'. reflexivity.
    + destruct H1 as (-> & Hp1).
      destruct (fst (sample X (env s) "instances"
                       (map VInt (c :: c' :: cs)))) as [x|e] eqn:Hs;
        [|discriminate].
      injection Hp1 as ->.
      split.
      * constructor; [|exact Hall]. simpl. split; [exact Hi|].
        unfold default_choices. simpl. rewrite Hbs, Hc. reflexivity.
      * split; [now left|].
        destruct (Hout' x eq_refl) as [(d & -> & Hd) | Hr].
        -- left. exists d, x. auto.
        -- now right.
Qed.

(* ---------------------------------------------------------------- *)
(** *** The merge-and-launch stage *)

Lemma merge_and_launch_events mode lp main p :
  emits is_late_event (merge_and_launch X mode lp main p).
Proof.
  unfold merge_and_launch.
  apply emits_bind; [apply emits_lift|]. intros iv.
  apply emits_bind; [apply emits_lift|]. intros exceeds.
  apply emits_bind; [apply emits_lift|]. intros iv2.
  apply emits_bind; [apply emits_suggest; reflexivity|]. intros nb.
  apply emits_bind; [apply emits_getitem|]. intros bs.
  apply emits_bind.
  - destruct bs as [ | ? | ? | ? | ? | l]; try apply emits_ret.
    destruct (1 <? Z.of_nat (length l)); [|apply emits_ret].
    apply emits_bind; [apply emits_lift|]. intros iv3.
    apply emits_bind; [apply emits_lift|]. intros kept. apply emits_ret.
  - intros bs'. apply emits_bind; [apply emits_setitem|]. intros _.
    apply emits_launch. intros m. exact I.
Qed.

(** The batch-size step of the code is [filter_batch_size]. *)
Lemma batch_block_eq cfg count bs (s : Store Env) :
  dict_get cfg "instances" = Some count ->
  match bs with
  | VList l =>
      if (1 <? Z.of_nat (length l)) then
        instances <- lift (dict_getitem cfg "instances") ;;
        kept <- lift (py_filter (filter_fn X instances) l) ;;
        ret (VList kept)
      else ret bs
  | _ => ret bs
  end s = (filter_batch_size X count bs, s, []).
Proof.
  intros Hcfg. destruct bs as [ | ? | ? | ? | ? | l]; simpl; try reflexivity.
  destruct (1 <? Z.of_nat (length l)); [|reflexivity].
  unfold bind, lift, ret, dict_getitem. rewrite Hcfg.
  destruct (py_filter (filter_fn X count) l); reflexivity.
Qed.

(** What the merge-and-launch stage does, case by case: the lookup of the
    merged instance count, the comparison with the core count and the clamp,
    the suggestion for ["nb_cores"], the batch-size step and the launch. *)
Lemma merge_and_launch_run mode lp main p (s : Store Env) r s' evs :
  merge_and_launch X mode lp main p s = (r, s', evs) ->
  match dict_get (dict_update p lp) "instances" with
  | None => r = Raise (KeyError "instances") /\ s' = s /\ evs = []
  | Some v =>
      match py_gt v (physical_core_nums (host X)) with
      | Raise e => r = Raise e /\ s' = s /\ evs = []
      | Ok exceeds =>
          let count := clamp (physical_core_nums (host X)) v exceeds in
          let choices := nb_cores_choices X mode count in
          match fst (sample X (env s) "nb_cores" choices) with
          | Raise e =>
              r = Raise e /\ heap s' = heap s /\ next s' = next s /\
              evs = [EvSuggest "nb_cores" choices]
          | Ok nb =>
              exists cfg,
                dict_get cfg "instances" = Some count /\
                dict_get cfg "nb_cores" = Some nb /\
                (forall k, k <> "instances" -> k <> "nb_cores" ->
                           dict_get cfg k = dict_get (dict_update p lp) k) /\
                match dict_get (heap s main) "batch_size" with
                | None =>
                    r = Raise (KeyError "batch_size") /\
                    heap s' = heap s /\ next s' = next s /\
                    evs = [EvSuggest "nb_cores" choices]
                | Some bs =>
                    match filter_batch_size X count bs with
                    | Raise e =>
                        r = Raise e /\ heap s' = heap s /\
                        next s' = next s /\
                        evs = [EvSuggest "nb_cores" choices]
                    | Ok bs' =>
                        let m := dict_set (heap s main) "batch_size" bs' in
                        evs = [EvSuggest "nb_cores" choices; EvLaunch cfg m] /\
                        (exists e0, r = fst (launch X e0 cfg m)) /\
                        next s' = next s /\
                        (forall r0,
                            heap s' r0
                            = if Nat.eqb r0 main then m else heap s r0)
                    end
                end
          end
      end
  end.
Proof.
  unfold merge_and_launch. intros H.
  set (merged := dict_update p lp) in *.
  set (cores := physical_core_nums (host X)) in *.
  bind_inv H iv s1 ev1 Hm; apply lift_run in Hm;
    destruct Hm as (Hiv & -> & ->); unfold dict_getitem in Hiv;
    destruct (dict_get merged "instances") as [v|] eqn:Hmerged;
    try discriminate.
  2:{ inversion Hiv. auto. }
  inversion Hiv; subst v. clear Hiv.
  bind_inv H exceeds s1 ev1 Hm; apply lift_run in Hm;
    destruct Hm as (Hgt & -> & ->); rewrite <- Hgt.
  2:{ auto. }
  cbv zeta.
  set (clamped :=
         if exceeds then dict_set merged "instances" (VInt cores)
         else merged) in *.
  assert (Hclamped :
            dict_get clamped "instances" = Some (clamp cores iv exceeds)).
  { unfold clamped, clamp. destruct exceeds.
    - apply dict_get_set_eq.
    - exact Hmerged. }
  bind_inv H iv2 s1 ev1 Hm; apply lift_run in Hm;
    destruct Hm as (Hiv & -> & ->); unfold dict_getitem in Hiv;
    rewrite Hclamped in Hiv; [|discriminate].
  inversion Hiv; subst iv2. clear Hiv.
  fold (nb_cores_choices X mode (clamp cores iv exceeds)) in H.
  bind_inv H nb s1 ev1 Hm; apply (suggest_run X) in Hm;
    destruct Hm as (Hnb & Hh1 & Hn1 & ->); rewrite <- Hnb.
  2:{ auto. }
  set (cfg := dict_set clamped "nb_cores" nb) in *.
  assert (Hcfg : dict_get cfg "instances" = Some (clamp cores iv exceeds)).
  { unfold cfg. rewrite dict_get_set_neq by discriminate. exact Hclamped. }
  exists cfg. split; [exact Hcfg|]. split; [apply dict_get_set_eq|]. split.
  { intros k Hk1 Hk2. unfold cfg. rewrite dict_get_set_neq by congruence.
    unfold clamped. destruct exceeds; [|reflexivity].
    now rewrite dict_get_set_neq by congruence. }
  bind_inv H bs s2 ev2 Hm; apply getitem_run in Hm;
    destruct Hm as (-> & -> & Hbs); rewrite Hh1 in Hbs;
    destruct (dict_get (heap s main) "batch_size") as [bs0|] eqn:Hget;
    try discriminate.
  2:{ inversion Hbs; subst. auto. }
  inversion Hbs; subst bs0. clear Hbs.
  bind_inv H bs' s2 ev2 Hm;
    rewrite (batch_block_eq cfg (clamp cores iv exceeds) bs s1 Hcfg) in Hm;
    inversion Hm; subst; clear Hm.
  2:{ match goal with H : _ = Raise _ |- _ => rewrite H end. auto. }
  match goal with H : _ = Ok _ |- _ => rewrite H end.
  bind_inv H u s3 ev3 Hm; apply setitem_run in Hm;
    destruct Hm as (Hu & -> & Hn3 & Hh3); [|discriminate].
  apply (launch_run X) in H. destruct H as (Hr & Hh & Hn & ->).
  assert (Hm3 : heap s3 main = dict_set (heap s main) "batch_size" bs').
  { rewrite Hh3, Nat.eqb_refl, Hh1. reflexivity. }
  rewrite Hm3 in *. simpl. split; [reflexivity|]. split; [eauto|].
  split; [congruence|].
  intros r0. rewrite Hh, Hh3. destruct (Nat.eqb r0 main); [|now rewrite Hh1].
  now rewrite Hh1.
Qed.

End Stages.

(* ================================================================== *)
(** ** The contract of a trial *)

Section Trial.

Context {Env Measure : Type}.
Variable X : Externals Env Measure.

Lemma trial_start_batch_size mp (s : Store Env) bs :
  dict_get (heap (snd (trial_start mp s)) (fst (trial_start mp s)))
    "batch_size" = Some bs ->
  exists main, mp = Some main /\ dict_get (heap s main) "batch_size" = Some bs.
Proof.
  destruct mp as [main|]; simpl.
  - eauto.
  - rewrite Nat.eqb_refl. discriminate.
Qed.

Lemma default_suggestion_not_launch mode lp md pre cfg m :
  Forall (is_default_suggestion X mode lp md) pre ->
  ~ In (EvLaunch cfg m) pre.
Proof.
  intros Hall Hin. rewrite Forall_forall in Hall. exact (Hall _ Hin).
Qed.

Lemma default_suggestion_not_nb_cores mode lp md pre c :
  Forall (is_default_suggestion X mode lp md) pre ->
  ~ In (EvSuggest "nb_cores" c) pre.
Proof.
  intros Hall Hin. rewrite Forall_forall in Hall.
  destruct (Hall _ Hin) as (_ & Hc). discriminate.
Qed.

Lemma default_suggestion_not_supplied mode lp md pre k v c :
  Forall (is_default_suggestion X mode lp md) pre ->
  dict_get lp k = Some v ->
  ~ In (EvSuggest k c) pre.
Proof.
  intros Hall Hk Hin. rewrite Forall_forall in Hall.
  destruct (Hall _ Hin) as (Hnone & _). congruence.
Qed.

Lemma late_event_not_default rest k c :
  Forall is_late_event rest -> k <> "nb_cores" ->
  ~ In (EvSuggest k c) rest.
Proof.
  intros Hall Hk Hin. rewrite Forall_forall in Hall.
  exact (Hk (Hall _ Hin)).
Qed.

Lemma clamp_int cores n :
  clamp cores (VInt n) (cores <? n) = VInt (Z.min n cores).
Proof.
  unfold clamp. destruct (Z.ltb_spec cores n); f_equal; lia.
Qed.

Lemma py_gt_clamp cores v exceeds :
  py_gt v cores = Ok exceeds ->
  py_gt (clamp cores v exceeds) cores = Ok false.
Proof.
  intros H. destruct exceeds; simpl; [|exact H].
  now rewrite Z.ltb_irrefl.
Qed.

(** A launch recorded in the events of a trial is the one launch of a trial
    that went through every step. *)
Lemma trial_launch_inv mode lp mp (s : Store Env) r s' evs cfg m :
  _optimize_latency_and_throughput X mode lp mp s = (r, s', evs) ->
  In (EvLaunch cfg m) evs ->
  exists main defaults s1 pre v exceeds nb bs bs',
    mp = Some main /\
    default_parameters X mode (or_empty lp) main s = (Ok defaults, s1, pre) /\
    Forall (is_default_suggestion X mode (or_empty lp) (heap s main)) pre /\
    dict_get (dict_update defaults (or_empty lp)) "instances" = Some v /\
    py_gt v (physical_core_nums (host X)) = Ok exceeds /\
    fst (sample X (env s1) "nb_cores"
           (nb_cores_choices X mode
              (clamp (physical_core_nums (host X)) v exceeds))) = Ok nb /\
    dict_get cfg "instances"
    = Some (clamp (physical_core_nums (host X)) v exceeds) /\
    dict_get cfg "nb_cores" = Some nb /\
    (forall k, k <> "instances" -> k <> "nb_cores" ->
               dict_get cfg k
               = dict_get (dict_update defaults (or_empty lp)) k) /\
    dict_get (heap s main) "batch_size" = Some bs /\
    filter_batch_size X (clamp (physical_core_nums (host X)) v exceeds) bs
    = Ok bs' /\
    m = dict_set (heap s main) "batch_size" bs' /\
    evs = pre ++ [EvSuggest "nb_cores"
                    (nb_cores_choices X mode
                       (clamp (physical_core_nums (host X)) v exceeds));
                  EvLaunch cfg m] /\
    (exists e0, r = fst (launch X e0 cfg m)) /\
    next s' = next s /\
    (forall r0, heap s' r0 = if Nat.eqb r0 main then m else heap s r0).
Proof.
  intros Hrun Hin.
  destruct (optimize_stages X _ _ _ _ _ _ _ Hrun)
    as (r1 & s1 & pre & Hd & Hrest).
  pose proof Hd as Hd'. apply default_parameters_run in Hd'.
  destruct Hd' as (Hh1 & Hn1 & Hall & _).
  destruct r1 as [d|e].
  2:{ destruct Hrest as (_ & _ & ->).
      now apply (default_suggestion_not_launch _ _ _ _ _ _ Hall) in Hin. }
  destruct Hrest as (rest & Hm & ->).
  apply in_app_or in Hin. destruct Hin as [Hin|Hin];
    [now apply (default_suggestion_not_launch _ _ _ _ _ _ Hall) in Hin|].
  apply merge_and_launch_run in Hm.
  destruct (dict_get (dict_update d (or_empty lp)) "instances") as [v|]
    eqn:Hmerged; [|destruct Hm as (_ & _ & ->); destruct Hin].
  destruct (py_gt v (physical_core_nums (host X))) as [exceeds|e] eqn:Hgt;
    [|destruct Hm as (_ & _ & ->); destruct Hin].
  cbv zeta in Hm.
  destruct (fst (sample X (env s1) "nb_cores"
                   (nb_cores_choices X mode
                      (clamp (physical_core_nums (host X)) v exceeds))))
    as [nb|e] eqn:Hnb.
  2:{ destruct Hm as (_ & _ & _ & ->). destruct Hin as [Hin|[]].
      discriminate. }
  destruct Hm as (cfg0 & Hci & Hcn & Hco & Hm). rewrite Hh1 in Hm.
  destruct (dict_get (heap (snd (trial_start mp s)) (fst (trial_start mp s)))
              "batch_size") as [bs|] eqn:Hbs.
  2:{ destruct Hm as (_ & _ & _ & ->). destruct Hin as [Hin|[]].
      discriminate. }
  destruct (filter_batch_size X
              (clamp (physical_core_nums (host X)) v exceeds) bs)
    as [bs'|e] eqn:Hf.
  2:{ destruct Hm as (_ & _ & _ & ->). destruct Hin as [Hin|[]].
      discriminate. }
  destruct (trial_start_batch_size _ _ _ Hbs) as (main & -> & Hbs').
  simpl in *. cbv zeta in Hm. destruct Hm as (-> & Hr & Hn & Hheap).
  destruct Hin as [Hin|[Hin|[]]]; [discriminate|].
  injection Hin as <- <-.
  exists main, d, s1, pre, v, exceeds, nb, bs, bs'.
  repeat (split; [first [reflexivity | assumption | congruence]|]).
  exact Hheap.
Qed.

(** A trial from the clamp on, once the defaults stage has succeeded and the
    merged instance count has been compared with the core count. *)
Lemma trial_after_clamp
    mode lp main (s : Store Env) r s' evs defaults s1 pre v exceeds :
  _optimize_latency_and_throughput X mode lp (Some main) s = (r, s', evs) ->
  default_parameters X mode (or_empty lp) main s = (Ok defaults, s1, pre) ->
  dict_get (dict_update defaults (or_empty lp)) "instances" = Some v ->
  py_gt v (physical_core_nums (host X)) = Ok exceeds ->
  let count := clamp (physical_core_nums (host X)) v exceeds in
  let choices := nb_cores_choices X mode count in
  Forall (is_default_suggestion X mode (or_empty lp) (heap s main)) pre /\
  match fst (sample X (env s1) "nb_cores" choices) with
  | Raise e =>
      r = Raise e /\ heap s' = heap s /\ next s' = next s /\
      evs = pre ++ [EvSuggest "nb_cores" choices]
  | Ok nb =>
      exists cfg,
        dict_get cfg "instances" = Some count /\
        dict_get cfg "nb_cores" = Some nb /\
        (forall k, k <> "instances" -> k <> "nb_cores" ->
                   dict_get cfg k
                   = dict_get (dict_update defaults (or_empty lp)) k) /\
        match dict_get (heap s main) "batch_size" with
        | None =>
            r = Raise (KeyError "batch_size") /\
            heap s' = heap s /\ next s' = next s /\
            evs = pre ++ [EvSuggest "nb_cores" choices]
        | Some bs =>
            match filter_batch_size X count bs with
            | Raise e =>
                r = Raise e /\ heap s' = heap s /\ next s' = next s /\
                evs = pre ++ [EvSuggest "nb_cores" choices]
            | Ok bs' =>
                let m := dict_set (heap s main) "batch_size" bs' in
                evs = pre ++ [EvSuggest "nb_cores" choices; EvLaunch cfg m] /\
                (exists e0, r = fst (launch X e0 cfg m)) /\
                next s' = next s /\
                (forall r0,
                    heap s' r0 = if Nat.eqb r0 main then m else heap s r0)
            end
        end
  end.
Proof.
  intros Hrun Hd Hmerged Hgt count choices.
  destruct (optimize_stages X _ _ _ _ _ _ _ Hrun)
    as (r1 & s1' & pre' & Hd' & Hrest).
  simpl in Hd'. rewrite Hd in Hd'. inversion Hd'; subst r1 s1' pre'.
  clear Hd'. destruct Hrest as (rest & Hm & ->). simpl in Hm.
  apply default_parameters_run in Hd. destruct Hd as (Hh & Hn & Hall & _).
  split; [exact Hall|].
  apply merge_and_launch_run in Hm. rewrite Hmerged, Hgt in Hm.
  cbv zeta in Hm. fold count in Hm. fold choices in Hm.
  destruct (fst (sample X (env s1) "nb_cores" choices)) as [nb|e].
  2:{ destruct Hm as (-> & Hh' & Hn' & ->).
      repeat split; congruence. }
  destruct Hm as (cfg & Hci & Hcn & Hco & Hm). exists cfg.
  split; [exact Hci|]. split; [exact Hcn|]. split; [exact Hco|].
  rewrite Hh in Hm.
  destruct (dict_get (heap s main) "batch_size") as [bs|].
  2:{ destruct Hm as (-> & Hh' & Hn' & ->). repeat split; congruence. }
  destruct (filter_batch_size X count bs) as [bs'|e].
  2:{ destruct Hm as (-> & Hh' & Hn' & ->). repeat split; congruence. }
  cbv zeta in Hm. destruct Hm as (-> & Hr & Hn' & Hheap).
  split; [reflexivity|]. split; [exact Hr|]. split; [congruence|].
  exact Hheap.
Qed.

(** The events of a trial: default suggestions, then at most the
    suggestion for ["nb_cores"] and the launch. *)
Lemma trial_events mode lp mp (s : Store Env) r s' evs :
  _optimize_latency_and_throughput X mode lp mp s = (r, s', evs) ->
  exists pre rest,
    evs = pre ++ rest /\
    Forall (is_default_suggestion X mode (or_empty lp)
              (heap (snd (trial_start mp s)) (fst (trial_start mp s)))) pre /\
    Forall is_late_event rest.
Proof.
  intros Hrun.
  destruct (optimize_stages X _ _ _ _ _ _ _ Hrun)
    as (r1 & s1 & pre & Hd & Hrest).
  apply default_parameters_run in Hd. destruct Hd as (_ & _ & Hall & _).
  destruct r1 as [d|e].
  - destruct Hrest as (rest & Hm & ->). exists pre, rest.
    split; [reflexivity|]. split; [exact Hall|].
    exact (merge_and_launch_events X _ _ _ _ _ _ _ _ Hm).
  - destruct Hrest as (_ & _ & ->). exists pre, [].
    split; [now rewrite app_nil_r|]. split; [exact Hall | constructor].
Qed.

End Trial.

(* ================================================================== *)
(** ** The claims on the objective function *)

Section Contract.

Context {Env Measure : Type}.
Variable X : Externals Env Measure.

(** The objective function of a mode runs the trial in that mode and maps
    its result. *)
Lemma objective_run mode lp mp (s : Store Env) :
  mode2objective X mode lp mp s =
  match _optimize_latency_and_throughput X mode lp mp s with
  | (Ok er, s1, evs) =>
      (Ok match mode with
          | LATENCY => Single (latency er)
          | THROUGHPUT => Single (throughput er)
          | BOTH => Pair (latency er) (throughput er)
          end, s1, evs)
  | (Raise e, s1, evs) => (Raise e, s1, evs)
  end.
Proof.
  destruct mode; simpl;
    unfold optimize_latency, optimize_throughput,
      optimize_latency_and_throughput, bind, ret;
    destruct (_optimize_latency_and_throughput X _ lp mp s) as [[[er|e] s1] evs];
    try reflexivity; now rewrite app_nil_r.
Qed.

(** A supplied key other than ["nb_cores"] is never sampled by the trial. *)
Lemma supplied_key_not_sampled mode lp mp (s : Store Env) r s' evs k v c :
  _optimize_latency_and_throughput X mode lp mp s = (r, s', evs) ->
  dict_get (or_empty lp) k = Some v ->
  k <> "nb_cores" ->
  ~ In (EvSuggest k c) evs.
Proof.
  intros Hrun Hk Hne Hin.
  destruct (trial_events X _ _ _ _ _ _ _ Hrun)
    as (pre & rest & -> & Hpre & Hrest).
  apply in_app_or in Hin. destruct Hin as [Hin|Hin].
  - exact (default_suggestion_not_supplied X _ _ _ _ _ _ _ Hpre Hk Hin).
  - exact (late_event_not_default _ _ _ Hrest Hne Hin).
Qed.

(** The override rule, on the objective function itself. *)
Lemma override_core mode lp mp (s : Store Env) r s' evs cfg m k v :
  NoDup (keys (or_empty lp)) ->
  _optimize_latency_and_throughput X mode lp mp s = (r, s', evs) ->
  In (EvLaunch cfg m) evs ->
  dict_get (or_empty lp) k = Some v ->
  k <> "nb_cores" ->
  dict_get cfg k = Some (overridden (physical_core_nums (host X)) k v).
Proof.
  intros Hnd Hrun Hin Hk Hne.
  destruct (trial_launch_inv X _ _ _ _ _ _ _ _ _ Hrun Hin)
    as (main & d & s1 & pre & v0 & exceeds & nb & bs & bs' & _ & _ & _
        & Hmerged & Hgt & _ & Hci & _ & Hco & _).
  unfold overridden.
  destruct (String.eqb_spec k "instances") as [->|Hki].
  - rewrite (dict_get_update _ _ _ Hnd), Hk in Hmerged.
    injection Hmerged as <-. rewrite Hgt. exact Hci.
  - rewrite (Hco k Hki Hne), (dict_get_update _ _ _ Hnd), Hk.
    reflexivity.
Qed.

(** Claim C1, as amended.  The objective function never asks a suggestion
    for a key, other than ["nb_cores"], that the launcher parameters handed
    to it hold; and in every trial that reaches the launcher the assembled
    configuration holds the caller's value under such a key, an
    ["instances"] value above the physical core count being replaced by
    that count (for an integer [n], the result is [min n cores]). *)
Theorem override_kept_up_to_core_clamp
    mode lp mp (s : Store Env) r s' evs k v :
  NoDup (keys (or_empty lp)) ->
  _optimize_latency_and_throughput X mode lp mp s = (r, s', evs) ->
  dict_get (or_empty lp) k = Some v ->
  k <> "nb_cores" ->
  (forall choices, ~ In (EvSuggest k choices) evs) /\
  (forall cfg m,
      In (EvLaunch cfg m) evs ->
      dict_get cfg k
      = Some (if String.eqb k "instances"
              then match py_gt v (physical_core_nums (host X)) with
                   | Ok true => VInt (physical_core_nums (host X))
                   | _ => v
                   end
              else v)) /\
  (forall cfg m n,
      In (EvLaunch cfg m) evs -> k = "instances" -> v = VInt n ->
      dict_get cfg "instances"
      = Some (VInt (Z.min n (physical_core_nums (host X))))).
Proof.
  intros Hnd Hrun Hk Hne. split; [|split].
  - intros choices. exact (supplied_key_not_sampled _ _ _ _ _ _ _ _ _ _ Hrun Hk Hne).
  - intros cfg m Hin.
    rewrite (override_core _ _ _ _ _ _ _ _ _ _ _ Hnd Hrun Hin Hk Hne).
    unfold overridden, clamp.
    destruct (String.eqb k "instances"); [|reflexivity].
    destruct (py_gt v (physical_core_nums (host X))) as [[|]|]; reflexivity.
  - intros cfg m n Hin -> ->.
    rewrite (override_core _ _ _ _ _ _ _ _ _ _ _ Hnd Hrun Hin Hk Hne).
    unfold overridden. simpl. now rewrite clamp_int.
Qed.

(** Claim C3.  The ["instances"] value of every configuration passed to
    the launcher does not exceed the physical core count of the host.  It is
    the clamp of lines 96-97 that makes it so: once the parameters are merged
    and the merged instance count compared with the core count, the trial
    goes on with exactly the core count when the merged value exceeds it and
    with the merged value otherwise; that count is what the ["nb_cores"]
    suggestion is asked for, what every launch carries, and, when the
    suggestion answers and the batch-size step succeeds, what the launcher
    is in fact started with. *)
Theorem instances_within_physical_cores
    mode lp mp (s : Store Env) r s' evs :
  _optimize_latency_and_throughput X mode lp mp s = (r, s', evs) ->
  (forall cfg m,
      In (EvLaunch cfg m) evs ->
      exists v,
        dict_get cfg "instances" = Some v /\
        py_gt v (physical_core_nums (host X)) = Ok false /\
        (forall n, v = VInt n -> n <= physical_core_nums (host X))) /\
  (forall main defaults s1 pre v exceeds,
      mp = Some main ->
      default_parameters X mode (or_empty lp) main s
      = (Ok defaults, s1, pre) ->
      dict_get (dict_update defaults (or_empty lp)) "instances" = Some v ->
      py_gt v (physical_core_nums (host X)) = Ok exceeds ->
      let count :=
        if exceeds then VInt (physical_core_nums (host X)) else v in
      In (EvSuggest "nb_cores" (nb_cores_choices X mode count)) evs /\
      (forall cfg m,
          In (EvLaunch cfg m) evs -> dict_get cfg "instances" = Some count) /\
      (forall nb bs bs',
          fst (sample X (env s1) "nb_cores" (nb_cores_choices X mode count))
          = Ok nb ->
          dict_get (heap s main) "batch_size" = Some bs ->
          filter_batch_size X count bs = Ok bs' ->
          exists cfg,
            In (EvLaunch cfg (dict_set (heap s main) "batch_size" bs')) evs /\
            dict_get cfg "instances" = Some count)).
Proof.
  intros Hrun. split.
  - intros cfg m Hin.
    destruct (trial_launch_inv X _ _ _ _ _ _ _ _ _ Hrun Hin)
      as (main0 & d & s1 & pre & v & exceeds & nb & bs & bs' & _ & _ & _
          & _ & Hgt & _ & Hci & _).
    exists (clamp (physical_core_nums (host X)) v exceeds).
    split; [exact Hci|]. split; [exact (py_gt_clamp _ _ _ Hgt)|].
    intros n Hn. pose proof (py_gt_clamp _ _ _ Hgt) as Hle.
    rewrite Hn in Hle. simpl in Hle. injection Hle as Hle.
    now apply Z.ltb_ge in Hle.
  - intros main defaults s1 pre v exceeds -> Hd Hmerged Hgt count.
    destruct (trial_after_clamp X _ _ _ _ _ _ _ _ _ _ _ _ Hrun Hd Hmerged Hgt)
      as (Hall & Hout).
    fold (clamp (physical_core_nums (host X)) v exceeds) in count.
    fold count in Hout.
    destruct (fst (sample X (env s1) "nb_cores"
                     (nb_cores_choices X mode count))) as [nb|e] eqn:Hnb.
    2:{ destruct Hout as (_ & _ & _ & ->). split; [|split].
        - apply in_or_app. right. now left.
        - intros cfg m Hin. apply in_app_or in Hin.
          destruct Hin as [Hin|[Hin|[]]]; [|discriminate].
          now apply (default_suggestion_not_launch X _ _ _ _ _ _ Hall) in Hin.
        - intros nb bs bs' Hc. discriminate. }
    destruct Hout as (cfg & Hci & _ & _ & Hout).
    destruct (dict_get (heap s main) "batch_size") as [bs|] eqn:Hbs.
    2:{ destruct Hout as (_ & _ & _ & ->). split; [|split].
        - apply in_or_app. right. now left.
        - intros cfg0 m Hin. apply in_app_or in Hin.
          destruct Hin as [Hin|[Hin|[]]]; [|discriminate].
          now apply (default_suggestion_not_launch X _ _ _ _ _ _ Hall) in Hin.
        - intros nb0 bs bs' _ Hc. discriminate. }
    destruct (filter_batch_size X count bs) as [bs'|e] eqn:Hf.
    2:{ destruct Hout as (_ & _ & _ & ->). split; [|split].
        - apply in_or_app. right. now left.
        - intros cfg0 m Hin. apply in_app_or in Hin.
          destruct Hin as [Hin|[Hin|[]]]; [|discriminate].
          now apply (default_suggestion_not_launch X _ _ _ _ _ _ Hall) in Hin.
        - intros nb0 bs0 bs' _ Hb Hc. injection Hb as <-.
          rewrite Hf in Hc. discriminate. }
    cbv zeta in Hout. destruct Hout as (-> & _). split; [|split].
    + apply in_or_app. right. now left.
    + intros cfg0 m Hin. apply in_app_or in Hin.
      destruct Hin as [Hin|[Hin|[Hin|[]]]]; [|discriminate|].
      * now apply (default_suggestion_not_launch X _ _ _ _ _ _ Hall) in Hin.
      * injection Hin as <- _. exact Hci.
    + intros nb0 bs0 bs0' _ Hb Hc. injection Hb as <-.
      rewrite Hf in Hc. injection Hc as <-.
      exists cfg. split; [|exact Hci].
      apply in_or_app. right. right. now left.
Qed.

(** Divisibility by a non-zero instance count, in the words of
    arithmetic. *)
Lemma divisible_spec n a :
  n <> 0 -> divisible n (VInt a) = true <-> (n | a).
Proof.
  intros Hn. simpl. rewrite Z.eqb_eq. now apply Z.mod_divide.
Qed.

Lemma filter_batch_size_short count bs :
  (forall l, bs = VList l -> (length l <= 1)%nat) ->
  filter_batch_size X count bs = Ok bs.
Proof.
  intros Hshort. destruct bs as [ | ? | ? | ? | ? | l]; try reflexivity.
  simpl. specialize (Hshort l eq_refl).
  destruct (Z.ltb_spec 1 (Z.of_nat (length l))); [lia | reflexivity].
Qed.

(** [size % instances == 0] on two integers. *)
Lemma filter_fn_ints n a :
  filter_fn X (VInt n) (VInt a)
  = if n =? 0 then Raise ZeroDivisionError else Ok (a mod n =? 0).
Proof. reflexivity. Qed.

(** The filter on integer candidates, for a non-zero integer count. *)
Lemma py_filter_ints n l :
  n <> 0 -> Forall is_int l ->
  py_filter (filter_fn X (VInt n)) l = Ok (filter (divisible n) l).
Proof.
  intros Hn Hall. induction Hall as [|x l (a & ->) _ IH]; simpl; [reflexivity|].
  rewrite filter_fn_ints, IH.
  destruct (Z.eqb_spec n 0); [contradiction | reflexivity].
Qed.

(** When the filter on integer candidates returns, it returns the
    divisible ones. *)
Lemma py_filter_ints_inv n l kept :
  Forall is_int l ->
  py_filter (filter_fn X (VInt n)) l = Ok kept ->
  kept = filter (divisible n) l.
Proof.
  intros Hall. revert kept.
  induction Hall as [|x l (a & ->) _ IH]; simpl; intros kept H.
  - now injection H as <-.
  - rewrite filter_fn_ints in H.
    destruct (Z.eqb_spec n 0); [discriminate|].
    destruct (py_filter (filter_fn X (VInt n)) l) as [r0|e]; [|discriminate].
    rewrite <- (IH r0 eq_refl). now injection H as <-.
Qed.

Lemma filter_batch_size_long count l :
  (1 < length l)%nat ->
  filter_batch_size X count (VList l)
  = match py_filter (filter_fn X count) l with
    | Ok kept => Ok (VList kept)
    | Raise e => Raise e
    end.
Proof.
  intros Hlen. unfold filter_batch_size.
  destruct (Z.ltb_spec 1 (Z.of_nat (length l))); [reflexivity | lia].
Qed.

(** Claim C4.  In every trial that reaches the launcher, when the batch
    size of the main parameters is a list of more than one integer and the
    instance count of the configuration is the integer [n], the batch size
    passed to the launcher is the sublist, in the original order, of the
    candidates evenly divisible by [n]; a scalar, or a list with at most one
    element, goes through as it is, and so do the other main parameters.
    And the filtered list is produced: a trial whose earlier steps succeed
    (the defaults stage, the comparison with the core count, the suggestion
    for ["nb_cores"]) and whose instance count is a non-zero integer does
    start the launcher with that sublist. *)
Theorem batch_size_restricted_to_divisible
    mode lp mp (s : Store Env) r s' evs :
  _optimize_latency_and_throughput X mode lp mp s = (r, s', evs) ->
  (forall cfg m,
      In (EvLaunch cfg m) evs ->
      exists main batch_size count,
        mp = Some main /\
        dict_get (heap s main) "batch_size" = Some batch_size /\
        dict_get cfg "instances" = Some count /\
        (forall l n,
            batch_size = VList l -> (1 < length l)%nat ->
            Forall is_int l -> count = VInt n ->
            dict_get m "batch_size"
            = Some (VList (filter (divisible n) l))) /\
        ((forall l, batch_size = VList l -> (length l <= 1)%nat) ->
         dict_get m "batch_size" = Some batch_size) /\
        (forall k, k <> "batch_size" ->
                   dict_get m k = dict_get (heap s main) k)) /\
  (forall main defaults s1 pre v exceeds n nb l,
      mp = Some main ->
      default_parameters X mode (or_empty lp) main s
      = (Ok defaults, s1, pre) ->
      dict_get (dict_update defaults (or_empty lp)) "instances" = Some v ->
      py_gt v (physical_core_nums (host X)) = Ok exceeds ->
      (if exceeds then VInt (physical_core_nums (host X)) else v) = VInt n ->
      n <> 0 ->
      fst (sample X (env s1) "nb_cores" (nb_cores_choices X mode (VInt n)))
      = Ok nb ->
      dict_get (heap s main) "batch_size" = Some (VList l) ->
      (1 < length l)%nat ->
      Forall is_int l ->
      exists cfg,
        In (EvLaunch cfg
              (dict_set (heap s main) "batch_size"
                 (VList (filter (divisible n) l)))) evs /\
        dict_get cfg "instances" = Some (VInt n)).
Proof.
  intros Hrun. split.
  - intros cfg m Hin.
    destruct (trial_launch_inv X _ _ _ _ _ _ _ _ _ Hrun Hin)
      as (main & d & s1 & pre & v & exceeds & nb & bs & bs' & Hmp & _ & _
          & _ & _ & _ & Hci & _ & _ & Hbs & Hf & Hm & _).
    exists main, bs, (clamp (physical_core_nums (host X)) v exceeds).
    split; [exact Hmp|]. split; [exact Hbs|]. split; [exact Hci|].
    subst m. split; [|split].
    + intros l n -> Hlen Hints Hn. rewrite dict_get_set_eq.
      rewrite Hn, (filter_batch_size_long _ _ Hlen) in Hf.
      destruct (py_filter (filter_fn X (VInt n)) l) as [kept|e] eqn:Hk;
        [|discriminate].
      injection Hf as <-.
      now rewrite (py_filter_ints_inv _ _ _ Hints Hk).
    + intros Hshort. rewrite dict_get_set_eq.
      rewrite (filter_batch_size_short _ _ Hshort) in Hf. congruence.
    + intros k Hk. apply dict_get_set_neq. congruence.
  - intros main defaults s1 pre v exceeds n nb l -> Hd Hmerged Hgt Hn Hn0
           Hnb Hbs Hlen Hints.
    destruct (trial_after_clamp X _ _ _ _ _ _ _ _ _ _ _ _ Hrun Hd Hmerged Hgt)
      as (_ & Hout).
    unfold clamp in Hout. rewrite Hn, Hnb in Hout.
    destruct Hout as (cfg & Hci & _ & _ & Hout).
    rewrite Hbs, (filter_batch_size_long _ _ Hlen),
      (py_filter_ints _ _ Hn0 Hints) in Hout.
    cbv zeta in Hout. destruct Hout as (-> & _).
    exists cfg. split; [|exact Hci].
    apply in_or_app. right. right. now left.
Qed.

(** Claim C5.  For every trial, the value the objective function of a mode
    returns is the latency of the experiment result under LATENCY, its
    throughput under THROUGHPUT, and the pair (latency, throughput) under
    BOTH. *)
Theorem objective_value_by_mode mode lp mp (s : Store Env) er s' evs :
  _optimize_latency_and_throughput X mode lp mp s = (Ok er, s', evs) ->
  mode2objective X mode lp mp s
  = (Ok match mode with
        | LATENCY => Single (latency er)
        | THROUGHPUT => Single (throughput er)
        | BOTH => Pair (latency er) (throughput er)
        end, s', evs).
Proof.
  intros Hrun.
  destruct mode; simpl;
    unfold optimize_latency, optimize_throughput,
      optimize_latency_and_throughput, bind, ret;
    rewrite Hrun; now rewrite app_nil_r.
Qed.

(** Claim C6.  The parameter preparer returns the sole element of a
    one-element candidate list without any call to the sampler, hands a list
    with more than one element to the categorical suggestion for that key,
    and returns a value that is not a list unchanged. *)
Theorem prepare_parameter_cases key v (s : Store Env) :
  (forall x, v = VList [x] ->
             prepare_parameter_for_optuna X key v s = (Ok x, s, [])) /\
  (forall l, v = VList l -> (1 < length l)%nat ->
             prepare_parameter_for_optuna X key v s
             = suggest_categorical X key l s) /\
  ((forall l, v <> VList l) ->
   prepare_parameter_for_optuna X key v s = (Ok v, s, [])).
Proof.
  split; [|split].
  - intros x ->. reflexivity.
  - intros l -> Hlen. destruct l as [|x [|y l]]; simpl in *; try lia.
    reflexivity.
  - intros Hnl. destruct v as [ | ? | ? | ? | ? | l]; try reflexivity.
    now contradiction (Hnl l).
Qed.

(** Claim C10, as amended.  Every suggestion for ["nb_cores"] is asked with
    the candidates that the core-count generator gives for the constant
    batch size 1 and the instance count of the trial: the value that the
    merge of the overrides left, or the core count when that value exceeds
    it.  The batch size of the main parameters is no argument of that call;
    it reaches the candidates only through an instance count generated from
    it, and not at all when the caller supplies ["instances"]: the
    candidates are then fixed by the mode, the host and the supplied count.
    The suggestion is asked as soon as the defaults stage and the comparison
    succeed, and a launch carries the instance count it was asked for and
    the answer it got. *)
Theorem nb_cores_candidates_from_dummy_batch_size
    mode lp mp (s : Store Env) r s' evs :
  _optimize_latency_and_throughput X mode lp mp s = (r, s', evs) ->
  (forall choices,
      In (EvSuggest "nb_cores" choices) evs ->
      exists defaults s1 pre v exceeds,
        default_parameters X mode (or_empty lp) (fst (trial_start mp s))
          (snd (trial_start mp s)) = (Ok defaults, s1, pre) /\
        dict_get (dict_update defaults (or_empty lp)) "instances" = Some v /\
        py_gt v (physical_core_nums (host X)) = Ok exceeds /\
        choices
        = map VInt
            (generate_nb_cores_candidates X (VInt 1) mode (host X)
               (Some (if exceeds then VInt (physical_core_nums (host X))
                      else v))) /\
        forall cfg m,
          In (EvLaunch cfg m) evs ->
          dict_get cfg "instances"
          = Some (if exceeds then VInt (physical_core_nums (host X))
                  else v)) /\
  (forall v choices,
      NoDup (keys (or_empty lp)) ->
      dict_get (or_empty lp) "instances" = Some v ->
      In (EvSuggest "nb_cores" choices) evs ->
      exists exceeds,
        py_gt v (physical_core_nums (host X)) = Ok exceeds /\
        choices
        = map VInt
            (generate_nb_cores_candidates X (VInt 1) mode (host X)
               (Some (if exceeds then VInt (physical_core_nums (host X))
                      else v)))) /\
  (forall defaults s1 pre v exceeds,
      default_parameters X mode (or_empty lp) (fst (trial_start mp s))
        (snd (trial_start mp s)) = (Ok defaults, s1, pre) ->
      dict_get (dict_update defaults (or_empty lp)) "instances" = Some v ->
      py_gt v (physical_core_nums (host X)) = Ok exceeds ->
      In (EvSuggest "nb_cores"
            (map VInt
               (generate_nb_cores_candidates X (VInt 1) mode (host X)
                  (Some (if exceeds then VInt (physical_core_nums (host X))
                         else v))))) evs) /\
  (forall cfg m,
      In (EvLaunch cfg m) evs ->
      exists count e0 nb,
        dict_get cfg "instances" = Some count /\
        In (EvSuggest "nb_cores"
              (map VInt
                 (generate_nb_cores_candidates X (VInt 1) mode (host X)
                    (Some count)))) evs /\
        fst (sample X e0 "nb_cores"
               (map VInt
                  (generate_nb_cores_candidates X (VInt 1) mode (host X)
                     (Some count)))) = Ok nb /\
        dict_get cfg "nb_cores" = Some nb).
Proof.
  intros Hrun.
  assert (Hfirst :
            forall choices,
              In (EvSuggest "nb_cores" choices) evs ->
              exists defaults s1 pre v exceeds,
                default_parameters X mode (or_empty lp)
                  (fst (trial_start mp s)) (snd (trial_start mp s))
                = (Ok defaults, s1, pre) /\
                dict_get (dict_update defaults (or_empty lp)) "instances"
                = Some v /\
                py_gt v (physical_core_nums (host X)) = Ok exceeds /\
                choices
                = nb_cores_choices X mode
                    (clamp (physical_core_nums (host X)) v exceeds) /\
                forall cfg m,
                  In (EvLaunch cfg m) evs ->
                  dict_get cfg "instances"
                  = Some (clamp (physical_core_nums (host X)) v exceeds)).
  { intros choices Hin.
    destruct (optimize_stages X _ _ _ _ _ _ _ Hrun)
      as (r1 & s1 & pre & Hd & Hrest).
    pose proof Hd as Hd'. apply default_parameters_run in Hd'.
    destruct Hd' as (_ & _ & Hall & _).
    destruct r1 as [d|e].
    2:{ destruct Hrest as (_ & _ & ->).
        now apply (default_suggestion_not_nb_cores X _ _ _ _ _ Hall) in Hin. }
    destruct Hrest as (rest & Hm & ->).
    apply in_app_or in Hin. destruct Hin as [Hin|Hin];
      [now apply (default_suggestion_not_nb_cores X _ _ _ _ _ Hall) in Hin|].
    apply merge_and_launch_run in Hm.
    destruct (dict_get (dict_update d (or_empty lp)) "instances") as [v|]
      eqn:Hmerged; [|destruct Hm as (_ & _ & ->); destruct Hin].
    destruct (py_gt v (physical_core_nums (host X))) as [exceeds|e] eqn:Hgt;
      [|destruct Hm as (_ & _ & ->); destruct Hin].
    cbv zeta in Hm.
    exists d, s1, pre, v, exceeds.
    split; [exact Hd|]. split; [exact Hmerged|]. split; [exact Hgt|].
    assert (Hrest :
              (rest = [EvSuggest "nb_cores"
                         (nb_cores_choices X mode
                            (clamp (physical_core_nums (host X)) v exceeds))])
              \/ exists cfg m,
                  dict_get cfg "instances"
                  = Some (clamp (physical_core_nums (host X)) v exceeds) /\
                  rest = [EvSuggest "nb_cores"
                            (nb_cores_choices X mode
                               (clamp (physical_core_nums (host X)) v
                                  exceeds));
                          EvLaunch cfg m]).
    { destruct (fst (sample X (env s1) "nb_cores"
                       (nb_cores_choices X mode
                          (clamp (physical_core_nums (host X)) v exceeds))))
        as [nb|e]; [|left; tauto].
      destruct Hm as (cfg & Hci & _ & _ & Hm).
      destruct (dict_get (heap s1 (fst (trial_start mp s))) "batch_size")
        as [bs|]; [|left; tauto].
      destruct (filter_batch_size X
                  (clamp (physical_core_nums (host X)) v exceeds) bs)
        as [bs'|e]; [|left; tauto].
      right. cbv zeta in Hm. destruct Hm as (-> & _). eauto. }
    destruct Hrest as [-> | (cfg & m & Hci & ->)].
    - destruct Hin as [Hin|[]]. injection Hin as <-.
      split; [reflexivity|]. intros cfg m Hl. exfalso.
      apply in_app_or in Hl. destruct Hl as [Hl|[Hl|[]]]; [|discriminate].
      now apply (default_suggestion_not_launch X _ _ _ _ _ _ Hall) in Hl.
    - destruct Hin as [Hin|[Hin|[]]]; [|discriminate]. injection Hin as <-.
      split; [reflexivity|]. intros cfg0 m0 Hl.
      apply in_app_or in Hl. destruct Hl as [Hl|[Hl|[Hl|[]]]];
        [|discriminate|].
      + now apply (default_suggestion_not_launch X _ _ _ _ _ _ Hall) in Hl.
      + injection Hl as <- _. exact Hci. }
  split; [|split; [|split]].
  - exact Hfirst.
  - intros v choices Hnd Hlp Hin.
    destruct (Hfirst _ Hin)
      as (d & s1 & pre & v0 & exceeds & _ & Hmerged & Hgt & -> & _).
    rewrite (dict_get_update _ _ _ Hnd), Hlp in Hmerged.
    injection Hmerged as <-. exists exceeds. split; [exact Hgt | reflexivity].
  - intros defaults s1 pre v exceeds Hd Hmerged Hgt.
    destruct (optimize_stages X _ _ _ _ _ _ _ Hrun)
      as (r1 & s1' & pre' & Hd' & Hrest).
    rewrite Hd in Hd'. inversion Hd'; subst r1 s1' pre'. clear Hd'.
    destruct Hrest as (rest & Hm & ->).
    apply merge_and_launch_run in Hm. rewrite Hmerged, Hgt in Hm.
    cbv zeta in Hm. apply in_or_app. right.
    fold (clamp (physical_core_nums (host X)) v exceeds).
    fold (nb_cores_choices X mode
            (clamp (physical_core_nums (host X)) v exceeds)).
    destruct (fst (sample X (env s1) "nb_cores"
                     (nb_cores_choices X mode
                        (clamp (physical_core_nums (host X)) v exceeds))))
      as [nb|e]; [|destruct Hm as (_ & _ & _ & ->); now left].
    destruct Hm as (cfg & _ & _ & _ & Hm).
    destruct (dict_get (heap s1 (fst (trial_start mp s))) "batch_size")
      as [bs|]; [|destruct Hm as (_ & _ & _ & ->); now left].
    destruct (filter_batch_size X
                (clamp (physical_core_nums (host X)) v exceeds) bs)
      as [bs'|e]; [|destruct Hm as (_ & _ & _ & ->); now left].
    cbv zeta in Hm. destruct Hm as (-> & _). now left.
  - intros cfg m Hin.
    destruct (trial_launch_inv X _ _ _ _ _ _ _ _ _ Hrun Hin)
      as (main & d & s1 & pre & v & exceeds & nb & bs & bs' & _ & _ & _
          & _ & _ & Hnb & Hci & Hcn & _ & _ & _ & _ & -> & _).
    exists (clamp (physical_core_nums (host X)) v exceeds), (env s1), nb.
    split; [exact Hci|]. split; [|split; [exact Hnb | exact Hcn]].
    apply in_or_app. right. now left.
Qed.


End Contract.

(* ================================================================== *)
(** ** Further properties of a trial *)

Section TrialProperties.

Context {Env Measure : Type}.
Variable X : Externals Env Measure.

(** Property X4.  Apart from ["nb_cores"], a trial asks a suggestion only
    for a name the caller did not supply, and asks it with the choices of
    that name: the three fixed lists, or the instance counts generated for
    the batch size of the main parameters. *)
Theorem defaults_sampled_only_when_not_supplied
    mode lp main (s : Store Env) r s' evs name choices :
  _optimize_latency_and_throughput X mode lp (Some main) s = (r, s', evs) ->
  In (EvSuggest name choices) evs ->
  name <> "nb_cores" ->
  dict_get (or_empty lp) name = None /\
  default_choices X mode (heap s main) name = Some choices.
Proof.
  intros Hrun Hin Hname.
  destruct (trial_events X _ _ _ _ _ _ _ Hrun)
    as (pre & rest & -> & Hpre & Hrest).
  simpl in Hpre. rewrite Forall_forall in Hpre.
  apply in_app_or in Hin. destruct Hin as [Hin|Hin].
  - exact (Hpre _ Hin).
  - now apply (late_event_not_default _ _ _ Hrest Hname) in Hin.
Qed.

(** Property X5.  When the instance count is not supplied and the generator
    returns no candidate for the batch size, the trial raises [IndexError]
    at once: nothing is sampled, nothing launched, the store is untouched. *)
Theorem no_instance_candidate_is_index_error
    mode lp main (s : Store Env) bs :
  dict_get (or_empty lp) "instances" = None ->
  dict_get (heap s main) "batch_size" = Some bs ->
  generate_nb_instances_candidates X bs mode (host X) = [] ->
  _optimize_latency_and_throughput X mode lp (Some main) s
  = (Raise IndexError, s, []).
Proof.
  intros Hlp Hbs Hc.
  destruct (_optimize_latency_and_throughput X mode lp (Some main) s)
    as [[r s'] evs] eqn:Hrun.
  destruct (optimize_stages X _ _ _ _ _ _ _ Hrun)
    as (r1 & s1 & pre & Hd & Hrest).
  simpl in Hd. apply default_parameters_run in Hd.
  destruct Hd as (_ & _ & _ & Hd).
  rewrite Hlp, Hbs, Hc in Hd. destruct Hd as (-> & -> & ->).
  destruct Hrest as (-> & -> & ->). reflexivity.
Qed.

(** Property X6.  When the instance count is not supplied and the generator
    returns exactly one candidate, the trial asks no suggestion for
    ["instances"] and launches, if it launches, with that candidate held to
    the core count; it does launch whenever the suggestions of the trial
    answer and the batch-size step succeeds. *)
Theorem sole_instance_candidate_not_sampled
    mode lp main (s : Store Env) r s' evs bs c :
  dict_get (or_empty lp) "instances" = None ->
  dict_get (heap s main) "batch_size" = Some bs ->
  generate_nb_instances_candidates X bs mode (host X) = [c] ->
  _optimize_latency_and_throughput X mode lp (Some main) s = (r, s', evs) ->
  (forall choices, ~ In (EvSuggest "instances" choices) evs) /\
  (forall cfg m,
      In (EvLaunch cfg m) evs ->
      dict_get cfg "instances"
      = Some (VInt (Z.min c (physical_core_nums (host X))))) /\
  (forall d s1 pre nb bs',
      default_parameters X mode (or_empty lp) main s = (Ok d, s1, pre) ->
      fst (sample X (env s1) "nb_cores"
             (nb_cores_choices X mode
                (VInt (Z.min c (physical_core_nums (host X)))))) = Ok nb ->
      filter_batch_size X (VInt (Z.min c (physical_core_nums (host X)))) bs
      = Ok bs' ->
      exists cfg,
        In (EvLaunch cfg (dict_set (heap s main) "batch_size" bs')) evs).
Proof.
  intros Hlp Hbs Hc Hrun.
  assert (Hdefaults :
            forall d s1 pre,
              default_parameters X mode (or_empty lp) main s
              = (Ok d, s1, pre) ->
              dict_get (dict_update d (or_empty lp)) "instances"
              = Some (VInt c)).
  { intros d s1 pre Hd. apply default_parameters_run in Hd.
    destruct Hd as (_ & _ & _ & Hcase). rewrite Hlp, Hbs, Hc in Hcase.
    destruct Hcase as (_ & [(d' & Hd' & Hdi) | (e & He & _)]);
      [|discriminate].
    injection Hd' as <-.
    now rewrite (dict_get_update_absent _ _ _ Hlp). }
  split; [|split].
  - intros ch Hin.
    destruct (optimize_stages X _ _ _ _ _ _ _ Hrun)
      as (r1 & s1 & pre & Hd & Hrest).
    simpl in Hd. pose proof Hd as Hd'. apply default_parameters_run in Hd'.
    destruct Hd' as (_ & _ & _ & Hcase). rewrite Hlp, Hbs, Hc in Hcase.
    destruct Hcase as (Hno & _).
    destruct r1 as [d|e].
    + destruct Hrest as (rest & Hm & ->).
      apply in_app_or in Hin. destruct Hin as [Hin|Hin];
        [now apply (Hno ch)|].
      apply merge_and_launch_events in Hm.
      now apply (late_event_not_default _ _ _ Hm) in Hin.
    + destruct Hrest as (_ & _ & ->). now apply (Hno ch).
  - intros cfg m Hin.
    destruct (trial_launch_inv X _ _ _ _ _ _ _ _ _ Hrun Hin)
      as (main0 & d & s1 & pre & v & exceeds & nb & bs0 & bs' & Hmp & Hd & _
          & Hmerged & Hgt & _ & Hci & _).
    injection Hmp as <-.
    rewrite (Hdefaults _ _ _ Hd) in Hmerged. injection Hmerged as <-.
    simpl in Hgt. injection Hgt as <-. now rewrite clamp_int in Hci.
  - intros d s1 pre nb bs' Hd Hnb Hf.
    destruct (trial_after_clamp X _ _ _ _ _ _ _ _ _ _ _ _ Hrun Hd
                (Hdefaults _ _ _ Hd) eq_refl) as (_ & Hout).
    rewrite clamp_int, Hnb in Hout.
    destruct Hout as (cfg & _ & _ & _ & Hout).
    rewrite Hbs, Hf in Hout. cbv zeta in Hout. destruct Hout as (-> & _).
    exists cfg. apply in_or_app. right. right. now left.
Qed.


(** Property X8.  A supplied instance count of zero is not rejected by the
    clamp: in a trial whose suggestions answer, with a batch-size list of
    more than one element whose first element is an integer, the filter
    raises [ZeroDivisionError]; nothing is launched and the heap is left as
    it was. *)
Theorem zero_instances_is_division_error
    mode lp main (s : Store Env) r s' evs a l d s1 pre nb :
  NoDup (keys (or_empty lp)) ->
  dict_get (or_empty lp) "instances" = Some (VInt 0) ->
  0 <= physical_core_nums (host X) ->
  dict_get (heap s main) "batch_size" = Some (VList (VInt a :: l)) ->
  l <> [] ->
  default_parameters X mode (or_empty lp) main s = (Ok d, s1, pre) ->
  fst (sample X (env s1) "nb_cores" (nb_cores_choices X mode (VInt 0)))
  = Ok nb ->
  _optimize_latency_and_throughput X mode lp (Some main) s = (r, s', evs) ->
  r = Raise ZeroDivisionError /\
  (forall cfg m, ~ In (EvLaunch cfg m) evs) /\
  heap s' = heap s.
Proof.
  intros Hnd Hlp Hcores Hbs Hl Hd Hnb Hrun.
  assert (Hmerged : dict_get (dict_update d (or_empty lp)) "instances"
                    = Some (VInt 0))
    by (now rewrite (dict_get_update _ _ _ Hnd), Hlp).
  destruct (trial_after_clamp X _ _ _ _ _ _ _ _ _ _ _ _ Hrun Hd Hmerged
              eq_refl) as (Hall & Hout).
  rewrite clamp_int in Hout.
  replace (Z.min 0 (physical_core_nums (host X))) with 0 in Hout by lia.
  rewrite Hnb in Hout. destruct Hout as (cfg & _ & _ & _ & Hout).
  rewrite Hbs in Hout.
  assert (Hf : filter_batch_size X (VInt 0) (VList (VInt a :: l))
               = Raise ZeroDivisionError).
  { destruct l as [|y l]; [contradiction|].
    rewrite filter_batch_size_long by (simpl; lia). reflexivity. }
  rewrite Hf in Hout. destruct Hout as (-> & Hh & _ & ->).
  split; [reflexivity|]. split; [|exact Hh].
  intros cfg0 m Hin. apply in_app_or in Hin. destruct Hin as [Hin|Hin].
  - now apply (default_suggestion_not_launch X _ _ _ _ _ _ Hall) in Hin.
  - simpl in Hin. intuition discriminate.
Qed.

Lemma launches_no_launch evs :
  (forall cfg m, ~ In (EvLaunch cfg m) evs) -> launches evs = 0%nat.
Proof.
  unfold launches. induction evs as [|e evs IH]; intros Hno; [reflexivity|].
  destruct e; simpl;
    try (apply IH; intros cfg m Hin; apply (Hno cfg m); now right).
  exfalso. eapply Hno. left. reflexivity.
Qed.

(** A trial either raises before the launcher, leaving the heap as it
    was, or ends with its one launch. *)
Lemma trial_shape mode lp mp (s : Store Env) r s' evs :
  _optimize_latency_and_throughput X mode lp mp s = (r, s', evs) ->
  ((forall cfg m, ~ In (EvLaunch cfg m) evs) /\
   (exists e, r = Raise e) /\
   heap s' = heap (snd (trial_start mp s)) /\
   next s' = next (snd (trial_start mp s)))
  \/ (exists pre cfg m e0,
         evs = pre ++ [EvLaunch cfg m] /\
         (forall cfg' m', ~ In (EvLaunch cfg' m') pre) /\
         r = fst (launch X e0 cfg m)).
Proof.
  intros Hrun.
  destruct (optimize_stages X _ _ _ _ _ _ _ Hrun)
    as (r1 & s1 & pre & Hd & Hrest).
  apply default_parameters_run in Hd. destruct Hd as (Hh1 & Hn1 & Hall & _).
  assert (Hquiet :
            forall rest,
              rest = [] \/ (exists c, rest = [EvSuggest "nb_cores" c]) ->
              forall cfg m, ~ In (EvLaunch cfg m) (pre ++ rest)).
  { intros rest Hrest' cfg m Hin. apply in_app_or in Hin.
    destruct Hin as [Hin|Hin];
      [now apply (default_suggestion_not_launch X _ _ _ _ _ _ Hall) in Hin|].
    destruct Hrest' as [-> | (c & ->)]; [destruct Hin|].
    destruct Hin as [Hin|[]]. discriminate. }
  destruct r1 as [d|e].
  2:{ destruct Hrest as (-> & -> & ->). left.
      split; [|split; [eauto | auto]].
      intros cfg m Hin.
      now apply (default_suggestion_not_launch X _ _ _ _ _ _ Hall) in Hin. }
  destruct Hrest as (rest & Hm & ->).
  apply merge_and_launch_run in Hm.
  destruct (dict_get (dict_update d (or_empty lp)) "instances") as [v|].
  2:{ destruct Hm as (-> & -> & ->). left.
      split; [apply Hquiet; now left|]. split; [eauto | auto]. }
  destruct (py_gt v (physical_core_nums (host X))) as [exceeds|e].
  2:{ destruct Hm as (-> & -> & ->). left.
      split; [apply Hquiet; now left|]. split; [eauto | auto]. }
  cbv zeta in Hm.
  destruct (fst (sample X (env s1) "nb_cores"
                   (nb_cores_choices X mode
                      (clamp (physical_core_nums (host X)) v exceeds))))
    as [nb|e].
  2:{ destruct Hm as (-> & Hh & Hn & ->). left.
      split; [apply Hquiet; right; eauto|].
      split; [eauto|]. split; congruence. }
  destruct Hm as (cfg & _ & _ & _ & Hm).
  destruct (dict_get (heap s1 (fst (trial_start mp s))) "batch_size")
    as [bs|].
  2:{ destruct Hm as (-> & Hh & Hn & ->). left.
      split; [apply Hquiet; right; eauto|].
      split; [eauto|]. split; congruence. }
  destruct (filter_batch_size X
              (clamp (physical_core_nums (host X)) v exceeds) bs)
    as [bs'|e].
  2:{ destruct Hm as (-> & Hh & Hn & ->). left.
      split; [apply Hquiet; right; eauto|].
      split; [eauto|]. split; congruence. }
  cbv zeta in Hm. destruct Hm as (-> & (e0 & ->) & _). right.
  exists (pre ++ [EvSuggest "nb_cores"
                    (nb_cores_choices X mode
                       (clamp (physical_core_nums (host X)) v exceeds))]),
    cfg, (dict_set (heap s1 (fst (trial_start mp s))) "batch_size" bs'), e0.
  split; [now rewrite <- app_assoc|]. split; [|reflexivity].
  apply Hquiet. right. eauto.
Qed.

(** Property X9.  A trial changes nothing in the heap but, at most, the
    ["batch_size"] entry of the caller's main parameters; it changes nothing
    at all when it does not launch, or when the batch size is a scalar or a
    list of at most one element. *)
Theorem trial_touches_only_batch_size
    mode lp main (s : Store Env) r s' evs :
  _optimize_latency_and_throughput X mode lp (Some main) s = (r, s', evs) ->
  touches_only_batch_size main s s' /\
  ((forall cfg m, ~ In (EvLaunch cfg m) evs) -> heap s' = heap s) /\
  (forall bs,
      dict_get (heap s main) "batch_size" = Some bs ->
      (forall l, bs = VList l -> (length l <= 1)%nat) ->
      forall r0, heap s' r0 = heap s r0).
Proof.
  intros Hrun.
  destruct (trial_shape _ _ _ _ _ _ _ Hrun)
    as [(_ & _ & Hh & Hn) | (pre & cfg & m & e0 & -> & _ & _)].
  - simpl in Hh, Hn. split; [|split].
    + split; [exact Hn|]. split; intros; now rewrite Hh.
    + intros _. exact Hh.
    + intros bs _ _ r0. now rewrite Hh.
  - assert (Hin : In (EvLaunch cfg m) (pre ++ [EvLaunch cfg m]))
      by (apply in_or_app; right; now left).
    destruct (trial_launch_inv X _ _ _ _ _ _ _ _ _ Hrun Hin)
      as (main0 & d & s1 & pre0 & v & exceeds & nb & bs & bs' & Hmp & _ & _
          & _ & _ & _ & _ & _ & _ & Hbs & Hf & Hm & _ & _ & Hn & Hheap).
    injection Hmp as <-. split; [|split].
    + split; [exact Hn|]. split.
      * intros r0 Hr0. rewrite Hheap.
        destruct (Nat.eqb_spec r0 main); [contradiction | reflexivity].
      * intros k Hk. rewrite Hheap, Nat.eqb_refl, Hm.
        apply dict_get_set_neq. congruence.
    + intros Hno. exfalso. exact (Hno _ _ Hin).
    + intros bs0 Hbs0 Hshort r0. rewrite Hbs in Hbs0. injection Hbs0 as <-.
      rewrite (filter_batch_size_short X _ _ Hshort) in Hf.
      injection Hf as <-.
      rewrite Hheap, Hm. destruct (Nat.eqb_spec r0 main) as [->|_].
      * now apply dict_set_same.
      * reflexivity.
Qed.

(** A trial that raises before the launcher launches nothing; any other
    trial launches once. *)
Lemma trial_launch_count mode lp mp (s : Store Env) r s' evs :
  _optimize_latency_and_throughput X mode lp mp s = (r, s', evs) ->
  (launches evs = 0%nat /\ exists e, r = Raise e) \/ launches evs = 1%nat.
Proof.
  intros Hrun.
  destruct (trial_shape _ _ _ _ _ _ _ Hrun)
    as [(Hno & Hr & _) | (pre & cfg & m & e0 & -> & Hno & _)].
  - left. split; [now apply launches_no_launch | exact Hr].
  - right. rewrite launches_app, (launches_no_launch _ Hno). reflexivity.
Qed.


End TrialProperties.

(* ================================================================== *)
(** ** The wrapper built by [specialize_objective] and the driver *)

Section Driver.

Context {Env Measure : Type}.
Variable X : Externals Env Measure.

(* ---------------------------------------------------------------- *)
(** *** The prepared launcher parameters *)

Lemma prepare_parameter_run key v (s : Store Env) r s1 ev :
  prepare_parameter_for_optuna X key v s = (r, s1, ev) ->
  heap s1 = heap s /\ next s1 = next s /\
  match v with
  | VList [x] => r = Ok x /\ ev = []
  | VList l => r = fst (sample X (env s) key l) /\ ev = [EvSuggest key l]
  | _ => r = Ok v /\ ev = []
  end.
Proof.
  destruct v as [ | ? | ? | ? | ? | l]; simpl;
    try solve [intros H; inversion H; auto].
  destruct l as [|x [|y l]].
  - intros H. apply (suggest_run X) in H. tauto.
  - intros H. inversion H. auto.
  - intros H. apply (suggest_run X) in H. tauto.
Qed.

(** The preparer either returns without an event, or asks the one
    suggestion for its key with a list that has not exactly one element. *)
Lemma prepare_parameter_events key v (s : Store Env) r s1 ev :
  prepare_parameter_for_optuna X key v s = (r, s1, ev) ->
  heap s1 = heap s /\ next s1 = next s /\
  ((ev = [] /\ exists x, r = Ok x) \/
   (exists l, v = VList l /\ length l <> 1%nat /\
              ev = [EvSuggest key l] /\
              r = fst (sample X (env s) key l))).
Proof.
  intros H. apply prepare_parameter_run in H. destruct H as (Hh & Hn & H).
  split; [exact Hh|]. split; [exact Hn|].
  destruct v as [ | ? | ? | ? | ? | l];
    try (destruct H as (-> & ->); left; eauto).
  destruct l as [|x [|y l]].
  - destruct H as (-> & ->). right. exists []. simpl. auto.
  - destruct H as (-> & ->). left. eauto.
  - destruct H as (-> & ->). right. exists (x :: y :: l). simpl. auto.
Qed.

(** The comprehension leaves the heap alone and starts no launcher; it
    raises only when a suggestion does, and otherwise builds a well-formed
    dictionary with the keys of its items. *)
Lemma prepare_items_run items acc (s : Store Env) r s' evs :
  prepare_items X items acc s = (r, s', evs) ->
  heap s' = heap s /\ next s' = next s /\
  only_suggests (map fst items) evs /\
  (forall k l, In (EvSuggest k l) evs ->
               In (k, VList l) items /\ length l <> 1%nat) /\
  match r with
  | Ok d =>
      (NoDup (keys acc) -> NoDup (keys d)) /\
      (forall k, In k (keys d) <-> In k (keys acc) \/ In k (map fst items))
  | Raise e => suggestion_raised X evs e
  end.
Proof.
  revert acc s r s' evs.
  induction items as [|[k v] items IH]; simpl; intros acc s r s' evs H.
  - apply ret_run in H. destruct H as (-> & -> & ->).
    repeat split; auto; try constructor; try tauto; intros k l [].
  - apply bind_run in H.
    destruct H as [(x & s1 & e1 & e2 & Hm & Hk & ->) | (e & Hm & ->)];
      apply prepare_parameter_events in Hm;
      destruct Hm as (Hh1 & Hn1 & Hev).
    + assert (He1 : only_suggests [k] e1 /\
                    forall k0 l, In (EvSuggest k0 l) e1 ->
                                 (k0, VList l) = (k, v) /\
                                 length l <> 1%nat).
      { destruct Hev as [(-> & _) | (l & -> & Hlen & -> & _)].
        - split; [constructor | intros k0 l []].
        - split; [apply only_suggests_one; now left|].
          intros k0 l0 [Hin|[]]. injection Hin as <- <-. auto. }
      destruct He1 as (He1 & Hsrc).
      destruct (IH _ _ _ _ _ Hk) as (Hh & Hn & He & Hsrc' & Hres).
      split; [congruence|]. split; [congruence|]. split; [|split].
      * apply only_suggests_app.
        -- eapply only_suggests_weaken; [|exact He1].
           intros n [<-|[]]. now left.
        -- eapply only_suggests_weaken; [|exact He].
           intros n Hn'. now right.
      * intros k0 l Hin. apply in_app_or in Hin. destruct Hin as [Hin|Hin].
        -- destruct (Hsrc _ _ Hin) as (Heq & Hlen). split; [now left | exact Hlen].
        -- destruct (Hsrc' _ _ Hin) as (Hin' & Hlen).
           split; [now right | exact Hlen].
      * destruct r as [d|e].
        -- destruct Hres as (Hnd & Hkeys). split.
           ++ intros Hacc. apply Hnd. now apply NoDup_keys_dict_set.
           ++ intros k'. rewrite Hkeys, keys_dict_set. intuition.
        -- now apply suggestion_raised_app_r.
    + destruct Hev as [(_ & x & Hx) | (l & -> & Hlen & -> & Hr)];
        [discriminate|].
      split; [exact Hh1|]. split; [exact Hn1|]. split; [|split].
      * apply only_suggests_one. now left.
      * intros k0 l0 [Hin|[]]. injection Hin as <- <-. split; [now left | exact Hlen].
      * exists (env s), k, l. split; [now left | now symmetry].
Qed.





(** Property X3.  The override rule seen from the wrapper, where the
    dictionary handed to the objective function is the prepared one: for
    every key the caller supplied, other than ["nb_cores"], the launched
    configuration holds the prepared value, an instance count being held to
    the core count. *)
Theorem specialize_objective_override
    mode lp mp (s : Store Env) r s' evs cfg m k :
  specialize_objective X (mode2objective X mode) lp mp s = (r, s', evs) ->
  In (EvLaunch cfg m) evs ->
  In k (keys (or_empty lp)) ->
  k <> "nb_cores" ->
  exists prepared s1 evs1 v,
    prepared_launcher_parameters X lp s = (Ok prepared, s1, evs1) /\
    dict_get prepared k = Some v /\
    dict_get cfg k = Some (overridden (physical_core_nums (host X)) k v).
Proof.
  unfold specialize_objective. intros Hrun Hin Hk Hne.
  apply bind_run in Hrun.
  destruct Hrun as [(d & s1 & e1 & e2 & Hm & Hobj & ->) | (e & Hm & ->)].
  - pose proof Hm as Hprep. unfold prepared_launcher_parameters in Hm.
    fold (or_empty lp) in Hm. apply prepare_items_run in Hm.
    destruct Hm as (Hh & Hn & He & _ & Hnd & Hkeys).
    apply in_app_or in Hin. destruct Hin as [Hin|Hin];
      [exfalso; now apply (only_suggests_no_launch _ _ _ _ He) in Hin|].
    assert (Hkd : In k (keys d)) by (apply Hkeys; now right).
    destruct (dict_get d k) as [v|] eqn:Hv;
      [|apply dict_get_None_keys in Hv; contradiction].
    exists d, s1, e1, v. split; [exact Hprep|]. split; [exact Hv|].
    rewrite objective_run in Hobj.
    destruct (_optimize_latency_and_throughput X mode (Some d) mp s1)
      as [[r0 s0] evs0] eqn:Hopt.
    assert (Hev : e2 = evs0) by (destruct r0; now inversion Hobj).
    subst e2.
    apply (override_core X mode (Some d) mp s1 r0 s0 evs0 cfg m k v); auto.
    simpl. apply Hnd. constructor.
  - exfalso. unfold prepared_launcher_parameters in Hm.
    apply prepare_items_run in Hm. destruct Hm as (_ & _ & He & _).
    now apply (only_suggests_no_launch _ _ _ _ He) in Hin.
Qed.

(* ---------------------------------------------------------------- *)
(** *** The events of the trial loop *)

Lemma optimize_trial_events mode lp mp (s : Store Env) r s' evs :
  _optimize_latency_and_throughput X mode lp mp s = (r, s', evs) ->
  Forall is_trial_event evs.
Proof.
  intros Hrun.
  destruct (trial_events X _ _ _ _ _ _ _ Hrun)
    as (pre & rest & -> & Hpre & Hrest).
  apply Forall_app. split.
  - eapply Forall_impl; [|exact Hpre]. intros [] H; try exact I; destruct H.
  - eapply Forall_impl; [|exact Hrest]. intros [] H; try exact I; destruct H.
Qed.

Lemma wrapper_trial_events mode lp mp (s : Store Env) r s' evs :
  specialize_objective X (mode2objective X mode) lp mp s = (r, s', evs) ->
  Forall is_trial_event evs.
Proof.
  unfold specialize_objective, prepared_launcher_parameters. intros Hrun.
  apply bind_run in Hrun.
  destruct Hrun as [(d & s1 & e1 & e2 & Hm & Hobj & ->) | (e & Hm & ->)];
    apply prepare_items_run in Hm;
    destruct Hm as (_ & _ & He & _);
    apply only_suggests_trial_events in He; [|exact He].
  apply Forall_app. split; [exact He|].
  rewrite objective_run in Hobj.
  destruct (_optimize_latency_and_throughput X mode (Some d) mp s1)
    as [[r0 s0] evs0] eqn:Hopt.
  apply optimize_trial_events in Hopt.
  destruct r0; inversion Hobj; subst; exact Hopt.
Qed.

Lemma study_optimize_trial_events mode lp mp n (s : Store Env) r s' evs :
  study_optimize (specialize_objective X (mode2objective X mode) lp mp) n s
  = (r, s', evs) ->
  Forall is_trial_event evs.
Proof.
  revert s r s' evs. induction n as [|n IH]; simpl; intros s r s' evs H.
  - apply ret_run in H. destruct H as (_ & _ & ->). constructor.
  - apply bind_run in H.
    destruct H as [(v & s1 & e1 & e2 & Hm & Hk & ->) | (e & Hm & ->)];
      apply wrapper_trial_events in Hm; [|exact Hm].
    apply Forall_app. split; [exact Hm | exact (IH _ _ _ _ Hk)].
Qed.

(* ---------------------------------------------------------------- *)
(** *** The tuning driver *)

(** The whole run of the driver on well-formed keyword arguments: the study
    is created first; when the trial loop completes the study is dumped, and
    unless the dump raises, the look-up of
    [TuningMode.LATENCY_AND_THROUGHPUT] then raises, in every mode, before
    either reporting branch is entered. *)
Lemma optuna_tune_run mp lp mode exp_name n_trials (s : Store Env) :
  exists r_loop s1 loop_evs,
    study_optimize (specialize_objective X (mode2objective X mode) lp mp)
      n_trials s = (r_loop, s1, loop_evs) /\
    Forall is_trial_event loop_evs /\
    optuna_tune X mp lp
      {| kw_mode := Some mode; kw_exp_name := Some exp_name;
         kw_n_trials := Some n_trials |} s
    = match r_loop with
      | Ok _ =>
          let path := os_path_join "outputs" (exp_name ++ "_study.pkl")%string in
          (match fst (dump X (env s1) path) with
           | Ok _ => Raise (AttributeError "LATENCY_AND_THROUGHPUT")
           | Raise e => Raise e
           end,
           mkStore (snd (dump X (env s1) path)) (heap s1) (next s1),
           EvCreateStudy (mode2create_study mode) (mode2sampler mode)
             (mode2directions mode)
           :: loop_evs ++ [EvDump path])
      | Raise e =>
          (Raise e, s1,
           EvCreateStudy (mode2create_study mode) (mode2sampler mode)
             (mode2directions mode) :: loop_evs)
      end.
Proof.
  destruct (study_optimize
              (specialize_objective X (mode2objective X mode) lp mp)
              n_trials s) as [[r_loop s1] loop_evs] eqn:Hloop.
  exists r_loop, s1, loop_evs. split; [reflexivity|].
  split; [exact (study_optimize_trial_events _ _ _ _ _ _ _ _ Hloop)|].
  unfold optuna_tune, bind, lift, emit, joblib_dump. simpl. rewrite Hloop.
  destruct r_loop as [u|e]; [|reflexivity]. cbv zeta.
  destruct (dump X (env s1)
              (os_path_join "outputs" (exp_name ++ "_study.pkl")%string))
    as [[u'|e] e1]; simpl; rewrite ?app_nil_r; reflexivity.
Qed.

(** Claim C9.  The driver creates the study as a function of the mode: the
    single-objective factory with a TPE sampler and direction "minimize" for
    LATENCY, the same with direction "maximize" for THROUGHPUT, and the
    multi-objective factory with an NSGA-II sampler and the directions
    "minimize", "maximize", in that order, for BOTH; it is the first thing the
    run does, and no other study is created. *)
Theorem study_created_by_mode mp lp mode exp_name n_trials (s : Store Env) :
  exists rest,
    snd (optuna_tune X mp lp
           {| kw_mode := Some mode; kw_exp_name := Some exp_name;
              kw_n_trials := Some n_trials |} s)
    = match mode with
      | LATENCY =>
          EvCreateStudy create_study TPESampler (direction "minimize")
      | THROUGHPUT =>
          EvCreateStudy create_study TPESampler (direction "maximize")
      | BOTH =>
          EvCreateStudy multi_objective_create_study NSGAIISampler
            (directions ["minimize"; "maximize"])
      end :: rest /\
    forall factory sampler kwargs,
      ~ In (EvCreateStudy factory sampler kwargs) rest.
Proof.
  destruct (optuna_tune_run mp lp mode exp_name n_trials s)
    as (r_loop & s1 & loop_evs & _ & Hloop & ->).
  rewrite Forall_forall in Hloop.
  destruct r_loop as [u|e]; simpl.
  - eexists. split; [destruct mode; reflexivity|].
    intros f sa kw Hin. apply in_app_or in Hin.
    destruct Hin as [Hin|[Hin|[]]]; [|discriminate].
    exact (Hloop _ Hin).
  - eexists. split; [destruct mode; reflexivity|].
    intros f sa kw Hin. exact (Hloop _ Hin).
Qed.

(** No run of the driver, in any mode, writes a table or a figure. *)
Lemma report_never_written mp lp mode exp_name n_trials (s : Store Env) e :
  In e (snd (optuna_tune X mp lp
               {| kw_mode := Some mode; kw_exp_name := Some exp_name;
                  kw_n_trials := Some n_trials |} s)) ->
  match e with
  | EvParamImportances _ | EvToCsv _ | EvPlotParetoFront _ | EvWriteImage _ =>
      False
  | _ => True
  end.
Proof.
  destruct (optuna_tune_run mp lp mode exp_name n_trials s)
    as (r_loop & s1 & loop_evs & _ & Hloop & ->).
  rewrite Forall_forall in Hloop.
  assert (Htrial : forall e, In e loop_evs ->
                             match e with
                             | EvParamImportances _ | EvToCsv _
                             | EvPlotParetoFront _ | EvWriteImage _ => False
                             | _ => True
                             end).
  { intros e' Hin. specialize (Hloop _ Hin). now destruct e'. }
  destruct r_loop as [u|e']; simpl; intros [<-|Hin]; try exact I.
  - apply in_app_or in Hin. destruct Hin as [Hin|[<-|[]]]; [|exact I].
    now apply Htrial.
  - now apply Htrial.
Qed.

(* ---------------------------------------------------------------- *)
(** *** Launches and the persisted study *)

Lemma wrapper_launches mode lp mp (s : Store Env) r s' evs :
  specialize_objective X (mode2objective X mode) lp mp s = (r, s', evs) ->
  (launches evs <= 1)%nat /\
  (forall v, r = Ok v -> launches evs = 1%nat).
Proof.
  unfold specialize_objective, prepared_launcher_parameters. intros Hrun.
  apply bind_run in Hrun.
  destruct Hrun as [(d & s1 & e1 & e2 & Hm & Hobj & ->) | (e & Hm & ->)];
    apply prepare_items_run in Hm;
    destruct Hm as (_ & _ & He & _);
    apply launches_only_suggests in He.
  2:{ rewrite He. split; [lia | discriminate]. }
  rewrite launches_app, He. simpl.
  rewrite (objective_run X) in Hobj.
  destruct (_optimize_latency_and_throughput X mode (Some d) mp s1)
    as [[r0 s0] evs0] eqn:Hopt.
  apply trial_launch_count in Hopt.
  destruct Hopt as [(H0 & e & ->) | H1].
  - inversion Hobj; subst. rewrite H0. split; [lia | discriminate].
  - assert (e2 = evs0) by (destruct r0; now inversion Hobj). subst e2.
    rewrite H1. split; [lia | reflexivity].
Qed.

Lemma study_optimize_launches mode lp mp n (s : Store Env) r s' evs :
  study_optimize (specialize_objective X (mode2objective X mode) lp mp) n s
  = (r, s', evs) ->
  (launches evs <= n)%nat /\
  (forall u, r = Ok u -> launches evs = n).
Proof.
  revert s r s' evs. induction n as [|n IH]; simpl; intros s r s' evs H.
  - apply ret_run in H. destruct H as (_ & _ & ->). split; [apply le_n | reflexivity].
  - apply bind_run in H.
    destruct H as [(v & s1 & e1 & e2 & Hm & Hk & ->) | (e & Hm & ->)];
      apply wrapper_launches in Hm; destruct Hm as (Hle & Heq).
    + destruct (IH _ _ _ _ Hk) as (Hle' & Heq').
      rewrite launches_app, (Heq v eq_refl). split; [lia|].
      intros u Hu. now rewrite (Heq' u Hu).
    + split; [lia | discriminate].
Qed.

(** Property X11.  The launcher is started at most [n_trials] times in a run
    of the driver, and exactly [n_trials] times when the study is dumped. *)
Theorem driver_launches_once_per_trial
    mp lp mode exp_name n_trials (s : Store Env) :
  let run :=
    optuna_tune X mp lp
      {| kw_mode := Some mode; kw_exp_name := Some exp_name;
         kw_n_trials := Some n_trials |} s in
  (launches (snd run) <= n_trials)%nat /\
  ((exists path, In (EvDump path) (snd run)) ->
   launches (snd run) = n_trials).
Proof.
  intros run. subst run.
  destruct (optuna_tune_run mp lp mode exp_name n_trials s)
    as (r_loop & s1 & loop_evs & Hloop & Htrial & ->).
  apply study_optimize_launches in Hloop. destruct Hloop as (Hle & Heq).
  rewrite Forall_forall in Htrial.
  destruct r_loop as [u|e]; simpl snd.
  - assert (H : launches
                  (EvCreateStudy (mode2create_study mode) (mode2sampler mode)
                     (mode2directions mode)
                   :: loop_evs
                      ++ [EvDump (os_path_join "outputs"
                                    (exp_name ++ "_study.pkl")%string)])
                = n_trials).
    { change (launches (loop_evs ++ [EvDump (os_path_join "outputs"
                                    (exp_name ++ "_study.pkl")%string)]) = n_trials).
      rewrite launches_app, (Heq u eq_refl). apply Nat.add_0_r. }
    rewrite H. split; [apply le_n | reflexivity].
  - split; [exact Hle|]. intros (path & [Hc|Hin]); [discriminate|].
    now apply Htrial in Hin.
Qed.

(** Property X12.  When a trial raises, the driver raises the same exception
    and no study is dumped. *)
Theorem failed_trial_leaves_no_study
    mp lp mode exp_name n_trials (s : Store Env) e :
  fst (fst (study_optimize
              (specialize_objective X (mode2objective X mode) lp mp)
              n_trials s)) = Raise e ->
  let run :=
    optuna_tune X mp lp
      {| kw_mode := Some mode; kw_exp_name := Some exp_name;
         kw_n_trials := Some n_trials |} s in
  fst (fst run) = Raise e /\
  (forall path, ~ In (EvDump path) (snd run)).
Proof.
  intros Hfail run. subst run.
  destruct (optuna_tune_run mp lp mode exp_name n_trials s)
    as (r_loop & s1 & loop_evs & Hloop & Htrial & ->).
  rewrite Hloop in Hfail. simpl in Hfail. subst r_loop. simpl.
  rewrite Forall_forall in Htrial.
  split; [reflexivity|].
  intros path [Hc|Hin]; [discriminate|]. now apply Htrial in Hin.
Qed.

Lemma prefix_empty (b : string) : String.prefix "" b = true.
Proof. destruct b; reflexivity. Qed.

Lemma prefix_slash_append (a b : string) :
  String.prefix "/" b = false ->
  String.prefix "/" (a ++ b)%string = String.prefix "/" a.
Proof.
  intros Hb. destruct a as [|c a]; [exact Hb|].
  change (match Ascii.ascii_dec (Ascii.Ascii true true true true false true false false) c with
          | left _ => String.prefix "" (a ++ b)%string
          | right _ => false
          end
          = match Ascii.ascii_dec (Ascii.Ascii true true true true false true false false) c with
            | left _ => String.prefix "" a
            | right _ => false
            end).
  destruct (Ascii.ascii_dec _ c); [|reflexivity].
  now rewrite !prefix_empty.
Qed.

(** Property X13.  The study is dumped at [outputs/<exp_name>_study.pkl],
    unless the experiment name starts with a slash: the path is then
    [<exp_name>_study.pkl], outside the outputs directory. *)
Theorem study_dump_path mp lp mode exp_name n_trials (s : Store Env) path :
  In (EvDump path)
     (snd (optuna_tune X mp lp
             {| kw_mode := Some mode; kw_exp_name := Some exp_name;
                kw_n_trials := Some n_trials |} s)) ->
  path = if String.prefix "/" exp_name
         then (exp_name ++ "_study.pkl")%string
         else ("outputs/" ++ exp_name ++ "_study.pkl")%string.
Proof.
  destruct (optuna_tune_run mp lp mode exp_name n_trials s)
    as (r_loop & s1 & loop_evs & _ & Htrial & ->).
  rewrite Forall_forall in Htrial.
  destruct r_loop as [u|e]; simpl; intros [Hc|Hin]; try discriminate.
  - apply in_app_or in Hin. destruct Hin as [Hin|[Hin|[]]];
      [now apply Htrial in Hin|].
    injection Hin as <-. unfold os_path_join.
    rewrite (prefix_slash_append exp_name "_study.pkl" eq_refl).
    destruct (String.prefix "/" exp_name); reflexivity.
  - now apply Htrial in Hin.
Qed.

End Driver.

(* ================================================================== *)
(** ** Worked runs on the concrete host *)

Ltac find_event := vm_compute; repeat (first [left; reflexivity | right]).

(** The example of the contract: candidates 16, 17 and 32 with four
    instances leave 16 and 32. *)
Example filter_batch_size_example :
  filter_batch_size Demo.externals (VInt 4)
    (VList [VInt 16; VInt 17; VInt 32])
  = Ok (VList [VInt 16; VInt 32]).
Proof. reflexivity. Qed.

(** The trial with eight instances asked on a four-core host. *)
Example pinned_trial_run :
  Demo.pinned_trial
  = (Ok {| latency := 10; throughput := 20 |},
     snd (fst Demo.pinned_trial),
     [EvSuggest "openmp" [VStr "openmp"; VStr "iomp"];
      EvSuggest "huge_pages" [VStr "on"; VStr "off"];
      EvSuggest "nb_cores" [VInt 1; VInt 2];
      EvLaunch Demo.pinned_cfg Demo.batch_sizes_for_four]).
Proof. reflexivity. Qed.

(** An instance count of 2.5 passes the comparison with the core count;
    without main parameters the trial then ends in the lookup error. *)
Example fractional_instances_is_lookup_error :
  fst (fst (mode2objective Demo.externals LATENCY (Some Demo.fractional)
              None (Demo.store [])))
  = Raise (KeyError "batch_size").
Proof. reflexivity. Qed.

(** When the suggestion for ["nb_cores"] raises, the trial ends in that
    exception, before the batch size is looked up. *)
Example refused_nb_cores_is_sampler_error :
  fst (fst (mode2objective Demo.refusing LATENCY
              (Some [("instances", VInt 2)]) None (Demo.store [])))
  = Raise (ExternalError "refused").
Proof. reflexivity. Qed.

Lemma pinned_trial_eta :
  _optimize_latency_and_throughput Demo.externals BOTH (Some Demo.pinned)
    (Some 0%nat) (Demo.store Demo.batch_sizes)
  = (fst (fst Demo.pinned_trial), snd (fst Demo.pinned_trial),
     snd Demo.pinned_trial).
Proof. reflexivity. Defined.

Lemma pinned_trial_launch :
  In (EvLaunch Demo.pinned_cfg Demo.batch_sizes_for_four)
     (snd Demo.pinned_trial).
Proof. find_event. Defined.

Lemma pinned_NoDup : NoDup (keys (or_empty (Some Demo.pinned))).
Proof.
  repeat constructor; simpl; intuition discriminate.
Defined.

Lemma pinned_defaults_run :
  default_parameters Demo.externals BOTH (or_empty (Some Demo.pinned))
    0%nat (Demo.store Demo.batch_sizes)
  = (Ok Demo.pinned_defaults, Demo.store Demo.batch_sizes,
     Demo.pinned_suggestions).
Proof. reflexivity. Defined.

Lemma batch_sizes_ints : Forall is_int [VInt 16; VInt 17; VInt 32].
Proof.
  repeat (constructor; [eexists; reflexivity|]). constructor.
Defined.

(** Claim C1, counterexample: with ["instances"] pinned to 8 and
    ["nb_cores"] to 64 on the four-core host, the launcher is started with 4
    instances and the sampled core count 1. *)
Lemma override_invariant_fails_on_pinned_cores :
  ~ override_invariant Demo.externals BOTH Demo.pinned_cores (Some 0%nat)
      (Demo.store Demo.batch_sizes).
Proof.
  intros H.
  specialize (H [("instances", VInt 4); ("openmp", VStr "openmp");
                 ("allocator", VStr "default"); ("huge_pages", VStr "on");
                 ("nb_cores", VInt 1)]
                Demo.batch_sizes_for_four "nb_cores" (VInt 64)).
  assert (Hget : Some (VInt 1) = Some (VInt 64)).
  { apply H; [find_event | reflexivity]. }
  discriminate.
Qed.

(** Both pinned keys are replaced in that trial. *)
Example pinned_cores_replaced :
  exists cfg m,
    In (EvLaunch cfg m)
       (snd (_optimize_latency_and_throughput Demo.externals BOTH
               (Some Demo.pinned_cores) (Some 0%nat)
               (Demo.store Demo.batch_sizes))) /\
    dict_get cfg "instances" = Some (VInt 4) /\
    dict_get cfg "nb_cores" = Some (VInt 1).
Proof.
  do 2 eexists. split; [find_event|]. split; reflexivity.
Qed.

Lemma override_kept_witness :
  (forall choices,
      ~ In (EvSuggest "allocator" choices) (snd Demo.pinned_trial)) /\
  dict_get Demo.pinned_cfg "allocator" = Some (VStr "jemalloc") /\
  dict_get Demo.pinned_cfg "instances" = Some (VInt 4).
Proof.
  destruct (override_kept_up_to_core_clamp Demo.externals BOTH
              (Some Demo.pinned) (Some 0%nat) (Demo.store Demo.batch_sizes)
              _ _ _ "allocator" (VStr "jemalloc")
              pinned_NoDup pinned_trial_eta eq_refl)
    as (Hnever & Hvalue & _); [discriminate|].
  destruct (override_kept_up_to_core_clamp Demo.externals BOTH
              (Some Demo.pinned) (Some 0%nat) (Demo.store Demo.batch_sizes)
              _ _ _ "instances" (VInt 8)
              pinned_NoDup pinned_trial_eta eq_refl)
    as (_ & _ & Hclamp); [discriminate|].
  split; [exact Hnever|]. split.
  - exact (Hvalue _ _ pinned_trial_launch).
  - exact (Hclamp _ _ 8 pinned_trial_launch eq_refl eq_refl).
Defined.

Lemma instances_within_witness :
  (exists v,
      dict_get Demo.pinned_cfg "instances" = Some v /\
      py_gt v 4 = Ok false) /\
  In (EvSuggest "nb_cores" (nb_cores_choices Demo.externals BOTH (VInt 4)))
     (snd Demo.pinned_trial) /\
  exists cfg,
    In (EvLaunch cfg Demo.batch_sizes_for_four) (snd Demo.pinned_trial) /\
    dict_get cfg "instances" = Some (VInt 4).
Proof.
  destruct (instances_within_physical_cores Demo.externals BOTH
              (Some Demo.pinned) (Some 0%nat) (Demo.store Demo.batch_sizes)
              _ _ _ pinned_trial_eta)
    as (Hsafe & Hclamp).
  destruct (Hclamp 0%nat Demo.pinned_defaults (Demo.store Demo.batch_sizes)
              Demo.pinned_suggestions (VInt 8) true eq_refl
              pinned_defaults_run eq_refl eq_refl)
    as (Hasked & _ & Hlive).
  split; [|split].
  - destruct (Hsafe _ _ pinned_trial_launch) as (v & Hv & Hle & _).
    exists v. split; [exact Hv | exact Hle].
  - exact Hasked.
  - exact (Hlive (VInt 1) (VList [VInt 16; VInt 17; VInt 32])
             (VList [VInt 16; VInt 32]) eq_refl eq_refl eq_refl).
Defined.

Lemma batch_size_restricted_witness :
  dict_get Demo.batch_sizes_for_four "batch_size"
  = Some (VList [VInt 16; VInt 32]) /\
  exists cfg,
    In (EvLaunch cfg Demo.batch_sizes_for_four) (snd Demo.pinned_trial) /\
    dict_get cfg "instances" = Some (VInt 4).
Proof.
  destruct (batch_size_restricted_to_divisible Demo.externals BOTH
              (Some Demo.pinned) (Some 0%nat) (Demo.store Demo.batch_sizes)
              _ _ _ pinned_trial_eta)
    as (Hcarried & Hproduced).
  split.
  - destruct (Hcarried _ _ pinned_trial_launch)
      as (main & bs & count & Hmp & Hbs & Hn & Hlist & _).
    injection Hmp as <-. injection Hbs as <-. injection Hn as <-.
    exact (Hlist [VInt 16; VInt 17; VInt 32] 4 eq_refl
             (le_S _ _ (le_n 2)) batch_sizes_ints eq_refl).
  - refine (Hproduced 0%nat Demo.pinned_defaults
              (Demo.store Demo.batch_sizes) Demo.pinned_suggestions
              (VInt 8) true 4 (VInt 1) [VInt 16; VInt 17; VInt 32]
              eq_refl pinned_defaults_run eq_refl eq_refl eq_refl _
              eq_refl eq_refl (le_S _ _ (le_n 2)) batch_sizes_ints).
    discriminate.
Defined.

Lemma objective_value_witness :
  mode2objective Demo.externals BOTH (Some Demo.pinned) (Some 0%nat)
    (Demo.store Demo.batch_sizes)
  = (Ok (Pair 10 20), snd (fst Demo.pinned_trial), snd Demo.pinned_trial).
Proof.
  apply (objective_value_by_mode Demo.externals BOTH (Some Demo.pinned)
           (Some 0%nat) (Demo.store Demo.batch_sizes)
           {| latency := 10; throughput := 20 |}).
  reflexivity.
Defined.

Lemma prepare_parameter_witness :
  prepare_parameter_for_optuna Demo.externals "allocator"
    (VList [VStr "jemalloc"]) (Demo.store [])
  = (Ok (VStr "jemalloc"), Demo.store [], []) /\
  prepare_parameter_for_optuna Demo.externals "allocator"
    (VList [VStr "default"; VStr "jemalloc"]) (Demo.store [])
  = suggest_categorical Demo.externals "allocator"
      [VStr "default"; VStr "jemalloc"] (Demo.store []) /\
  prepare_parameter_for_optuna Demo.externals "instances" (VInt 2)
    (Demo.store [])
  = (Ok (VInt 2), Demo.store [], []).
Proof.
  split; [|split].
  - apply (proj1 (prepare_parameter_cases Demo.externals "allocator"
                    (VList [VStr "jemalloc"]) (Demo.store []))).
    reflexivity.
  - apply (proj1 (proj2 (prepare_parameter_cases Demo.externals "allocator"
                           (VList [VStr "default"; VStr "jemalloc"])
                           (Demo.store [])))).
    + reflexivity.
    + simpl. lia.
  - apply (proj2 (proj2 (prepare_parameter_cases Demo.externals "instances"
                           (VInt 2) (Demo.store [])))).
    intros l. discriminate.
Defined.

(** Claim C10, counterexample: on a host whose generators follow their
    arguments, the batch size 1 gives the instance count 1 and the
    candidates [4] for ["nb_cores"], the batch size 2 gives the instance
    count 2 and the candidates [2]. *)
Lemma batch_size_reaches_nb_cores_candidates :
  ~ nb_cores_choices_ignore_batch_size Demo.scaling LATENCY None tt
      (VInt 1) (VInt 2).
Proof.
  intros H. specialize (H [VInt 4] [VInt 2]).
  assert (Heq : [VInt 4] = [VInt 2]) by (apply H; find_event).
  discriminate.
Qed.

Lemma nb_cores_candidates_witness :
  exists exceeds,
    py_gt (VInt 8) 4 = Ok exceeds /\
    [VInt 1; VInt 2]
    = map VInt
        (generate_nb_cores_candidates Demo.externals (VInt 1) BOTH
           (host Demo.externals)
           (Some (if exceeds then VInt 4 else VInt 8))).
Proof.
  destruct (nb_cores_candidates_from_dummy_batch_size Demo.externals
              BOTH (Some Demo.pinned) (Some 0%nat)
              (Demo.store Demo.batch_sizes) _ _ _ pinned_trial_eta)
    as (_ & Hsupplied & _).
  refine (Hsupplied (VInt 8) [VInt 1; VInt 2] pinned_NoDup eq_refl _).
  find_event.
Defined.





(** Claim C7, the code on the failing input: one trial with four instances
    on the candidates 16, 17 and 32 leaves the caller's own mapping holding
    16 and 32 only, which is what the next trial starts from. *)
Theorem trial_rewrites_caller_batch_size :
  heap (snd (fst (mode2objective Demo.externals BOTH
                    (Some [("instances", VInt 4)]) (Some 0%nat)
                    (Demo.store Demo.batch_sizes)))) 0%nat
  = Demo.batch_sizes_for_four /\
  ~ main_parameters_unchanged Demo.externals BOTH
      (Some [("instances", VInt 4)]) 0%nat (Demo.store Demo.batch_sizes).
Proof.
  split; [reflexivity|].
  unfold main_parameters_unchanged. vm_compute. discriminate.
Qed.

(** Claim C2, the code on the failing input: in mode BOTH, with the
    allocator pinned and two trials, the run dumps the study and then ends in
    the attribute error; neither the importances table nor the Pareto-front
    image is written. *)
Theorem both_mode_report_not_written :
  fst (fst Demo.both_run) = Raise (AttributeError "LATENCY_AND_THROUGHPUT") /\
  In (EvDump "outputs/exp_study.pkl") (snd Demo.both_run) /\
  ~ In (EvToCsv "outputs/exp_importances.csv") (snd Demo.both_run) /\
  ~ In (EvWriteImage "outputs/exp_pareto_front.png") (snd Demo.both_run).
Proof.
  split; [reflexivity|]. split; [find_event|].
  split; vm_compute; intuition discriminate.
Qed.

(* ================================================================== *)
(** ** Worked runs for the stages, the wrapper and the driver *)




Lemma wrapper_override_witness :
  exists prepared s1 evs1 v,
    prepared_launcher_parameters Demo.externals (Some Demo.declared)
      (Demo.store Demo.one_batch_size) = (Ok prepared, s1, evs1) /\
    dict_get prepared "allocator" = Some v /\
    dict_get Demo.declared_cfg "allocator"
    = Some (overridden 4 "allocator" v).
Proof.
  apply (specialize_objective_override Demo.externals LATENCY
           (Some Demo.declared) (Some 0%nat) (Demo.store Demo.one_batch_size)
           (fst (fst Demo.declared_trial)) (snd (fst Demo.declared_trial))
           (snd Demo.declared_trial) Demo.declared_cfg Demo.one_batch_size
           "allocator").
  - reflexivity.
  - find_event.
  - simpl. auto.
  - discriminate.
Defined.

Lemma defaults_sampled_witness :
  dict_get (or_empty (Some Demo.pinned)) "openmp" = None /\
  default_choices Demo.externals BOTH
    (heap (Demo.store Demo.batch_sizes) 0%nat) "openmp"
  = Some [VStr "openmp"; VStr "iomp"].
Proof.
  apply (defaults_sampled_only_when_not_supplied Demo.externals BOTH
           (Some Demo.pinned) 0%nat (Demo.store Demo.batch_sizes)
           _ _ _ "openmp" [VStr "openmp"; VStr "iomp"] pinned_trial_eta).
  - find_event.
  - discriminate.
Defined.

Lemma no_candidate_witness :
  _optimize_latency_and_throughput (Demo.externals_with []) LATENCY None
    (Some 0%nat) (Demo.store Demo.one_batch_size)
  = (Raise IndexError, Demo.store Demo.one_batch_size, []).
Proof.
  apply (no_instance_candidate_is_index_error (Demo.externals_with [])
           LATENCY None 0%nat (Demo.store Demo.one_batch_size) (VInt 32));
    reflexivity.
Defined.

Lemma sole_candidate_witness :
  (forall choices, ~ In (EvSuggest "instances" choices) (snd Demo.sole_trial))
  /\ exists cfg, In (EvLaunch cfg Demo.one_batch_size) (snd Demo.sole_trial).
Proof.
  destruct (sole_instance_candidate_not_sampled (Demo.externals_with [2])
              LATENCY None 0%nat (Demo.store Demo.one_batch_size)
              (fst (fst Demo.sole_trial)) (snd (fst Demo.sole_trial))
              (snd Demo.sole_trial) (VInt 32) 2
              eq_refl eq_refl eq_refl eq_refl)
    as (Hno & _ & Hlive).
  split; [exact Hno|].
  eapply (Hlive _ _ _ (VInt 1) (VInt 32)); reflexivity.
Defined.


Lemma zero_instances_NoDup :
  NoDup (keys (or_empty (Some [("instances", VInt 0)]))).
Proof. repeat constructor; simpl; intuition discriminate. Defined.

Lemma zero_instances_witness :
  fst (fst Demo.zero_trial) = Raise ZeroDivisionError /\
  (forall cfg m, ~ In (EvLaunch cfg m) (snd Demo.zero_trial)) /\
  heap (snd (fst Demo.zero_trial)) = heap (Demo.store Demo.batch_sizes).
Proof.
  eapply (zero_instances_is_division_error Demo.externals LATENCY
            (Some [("instances", VInt 0)]) 0%nat (Demo.store Demo.batch_sizes)
            _ _ _ 16 [VInt 17; VInt 32]).
  - exact zero_instances_NoDup.
  - reflexivity.
  - simpl. lia.
  - reflexivity.
  - discriminate.
  - reflexivity.
  - reflexivity.
  - reflexivity.
Defined.

Lemma touches_only_witness :
  touches_only_batch_size 0%nat (Demo.store Demo.batch_sizes)
    (snd (fst Demo.pinned_trial)).
Proof.
  exact (proj1 (trial_touches_only_batch_size Demo.externals BOTH
                  (Some Demo.pinned) 0%nat (Demo.store Demo.batch_sizes)
                  _ _ _ pinned_trial_eta)).
Defined.


Lemma driver_launches_witness :
  (launches (snd Demo.both_run) <= 2)%nat /\
  launches (snd Demo.both_run) = 2%nat.
Proof.
  destruct (driver_launches_once_per_trial Demo.externals (Some 0%nat)
              (Some [("allocator", VStr "jemalloc")]) BOTH "exp" 2%nat
              (Demo.store Demo.batch_sizes)) as (Hle & Heq).
  split; [exact Hle|]. apply Heq.
  exists "outputs/exp_study.pkl". find_event.
Defined.

Lemma failed_trial_witness :
  fst (fst Demo.orphan_run) = Raise (KeyError "batch_size") /\
  (forall path, ~ In (EvDump path) (snd Demo.orphan_run)).
Proof.
  apply (failed_trial_leaves_no_study Demo.externals (Some 0%nat) None
           LATENCY "/tmp/exp" 2%nat (Demo.store [])).
  reflexivity.
Defined.

Lemma study_dump_path_witness :
  In (EvDump "/tmp/exp_study.pkl") (snd Demo.absolute_run) /\
  "/tmp/exp_study.pkl"
  = (if String.prefix "/" "/tmp/exp"
     then "/tmp/exp" ++ "_study.pkl"
     else "outputs/" ++ "/tmp/exp" ++ "_study.pkl")%string.
Proof.
  assert (Hin : In (EvDump "/tmp/exp_study.pkl") (snd Demo.absolute_run))
    by find_event.
  split; [exact Hin|].
  exact (study_dump_path Demo.externals (Some 0%nat) None LATENCY
           "/tmp/exp" 2%nat (Demo.store Demo.one_batch_size)
           "/tmp/exp_study.pkl" Hin).
Defined.
